(** * Presence tracker of the free-sleep server

    A shallow embedding of the presence route of the server
    ([server/dist/routes/metrics/presence.js] and its TypeScript source).
    The repository carries two variants of the route file.  Both share the configuration constant, the
    in-memory store, [isDataStale] and the [POST /presence] handler; they
    differ in [GET /presence]:

    - the _formatSideData_ variant answers with [{present, lastUpdatedAt,
      isStale}] objects (module [Formatted]);
    - the _sentinel_ variant answers with [{side, presence, ...}] objects in
      which an unavailable zone is reported as the string ['not available']
      (module [Sentinel]).

    Handlers are written in a small monad that threads the process state
    (the store and the wall clock) and supports the early
    [return res.status(..).json(..)] of the source. *)

From Stdlib Require Import ZArith Bool List String Lia.
Import ListNotations.
Open Scope string_scope.
Open Scope Z_scope.

#[local] Set Warnings "-register-all".

(** ** JSON values

    Request bodies and response bodies are JSON.  Numbers are integers here:
    the only numbers the handlers produce are [Date.now()] readings. *)

Inductive JsonValue : Type :=
| JNull
| JBool (b : bool)
| JNumber (n : Z)
| JString (s : string)
| JArray (items : list JsonValue)
| JObject (fields : list (string * JsonValue)).

(** [typeof v === 'boolean'] *)
Definition isBoolean (v : JsonValue) : bool :=
  match v with
  | JBool _ => true
  | _ => false
  end.

Fixpoint assoc (k : string) (fields : list (string * JsonValue)) : option JsonValue :=
  match fields with
  | [] => None
  | (k', v) :: rest => if String.eqb k k' then Some v else assoc k rest
  end.

(** [v.k]; [None] stands for [undefined]. *)
Definition prop (k : string) (v : JsonValue) : option JsonValue :=
  match v with
  | JObject fields => assoc k fields
  | _ => None
  end.

(** How a [boolean | null] and a [number | null] are serialised. *)
Definition jsonOfBool (b : option bool) : JsonValue :=
  match b with
  | Some x => JBool x
  | None => JNull
  end.

Definition jsonOfNumber (n : option Z) : JsonValue :=
  match n with
  | Some x => JNumber x
  | None => JNull
  end.

(** ** Requests and responses *)

(** The two properties [POST /presence] destructures from [req.body];
    [None] is [undefined] (the key is missing).  The body itself reaches
    the handler as an [option Body]: [None] is a [req.body] that is
    [undefined], as it is when no body was parsed. *)
Record Body : Type := mkBody {
  req_left : option JsonValue;
  req_right : option JsonValue
}.

(** A parsed query-string value: a string, an array ([?side=a&side=b]) or a
    nested object ([?side[x]=a]). *)
Inductive QueryValue : Type :=
| QString (s : string)
| QArray (items : list QueryValue)
| QObject (fields : list (string * QueryValue)).

(** [side === s] for a string literal [s]; [side] is [req.query.side]. *)
Definition strictEq (side : option QueryValue) (s : string) : bool :=
  match side with
  | Some (QString t) => String.eqb t s
  | _ => false
  end.

Record Response : Type := mkResponse {
  status : Z;
  json : JsonValue
}.

(** ** Configuration and store *)

Definition STALE_DATA_TIMEOUT_MS : Z := 10 * 60 * 1000.

Record LastUpdated : Type := mkLastUpdated {
  lu_left : option Z;
  lu_right : option Z
}.

(** [InternalPresenceData] (called [PresenceData] in the sentinel variant):
    [null] is [None]. *)
Record InternalPresenceData : Type := mkPresenceData {
  left : option bool;
  right : option bool;
  lastUpdated : LastUpdated
}.

(** The module-level [presenceData] as it is when the process starts. *)
Definition initialPresenceData : InternalPresenceData :=
  {| left := None;
     right := None;
     lastUpdated := {| lu_left := None; lu_right := None |} |}.

(** ** Process state and the handler monad

    [clock w k] is what the [k]-th call of [Date.now()] returns; [ticks w]
    counts the calls made so far.  Nothing is assumed about the clock. *)

Record World : Type := mkWorld {
  clock : nat -> Z;
  ticks : nat;
  presenceData : InternalPresenceData
}.

Inductive Outcome (A : Type) : Type :=
| Next (a : A)
| Sent (r : Response).
Arguments Next {A} a.
Arguments Sent {A} r.

Definition Handler (A : Type) : Type := World -> Outcome A * World.

Definition ret {A : Type} (a : A) : Handler A := fun w => (Next a, w).

Definition bind {A B : Type} (m : Handler A) (f : A -> Handler B) : Handler B :=
  fun w =>
    match m w with
    | (Next a, w') => f a w'
    | (Sent r, w') => (Sent r, w')
    end.

Declare Scope handler_scope.
Delimit Scope handler_scope with handler.
Notation "x <- m ;; k" := (bind m (fun x => k))
  (at level 61, m at next level, right associativity) : handler_scope.
Notation "m ;; k" := (bind m (fun _ => k))
  (at level 61, right associativity) : handler_scope.
Open Scope handler_scope.

(** [return res.status(s).json(b)] *)
Definition send {A : Type} (s : Z) (b : JsonValue) : Handler A :=
  fun w => (Sent {| status := s; json := b |}, w).

(** [Date.now()] *)
Definition Date_now : Handler Z :=
  fun w => (Next (clock w (ticks w)),
            {| clock := clock w; ticks := S (ticks w); presenceData := presenceData w |}).

(** Reading the module-level [presenceData]. *)
Definition readData : Handler InternalPresenceData :=
  fun w => (Next (presenceData w), w).

Definition writeData (f : InternalPresenceData -> InternalPresenceData) : Handler unit :=
  fun w => (Next tt,
            {| clock := clock w; ticks := ticks w; presenceData := f (presenceData w) |}).

(** [presenceData.left = b; presenceData.lastUpdated.left = t] and the same
    for the right side, one assignment each. *)
Definition assign_left (b : bool) : Handler unit :=
  writeData (fun d => {| left := Some b; right := right d; lastUpdated := lastUpdated d |}).

Definition assign_lastUpdated_left (t : Z) : Handler unit :=
  writeData (fun d =>
    {| left := left d; right := right d;
       lastUpdated := {| lu_left := Some t; lu_right := lu_right (lastUpdated d) |} |}).

Definition assign_right (b : bool) : Handler unit :=
  writeData (fun d => {| left := left d; right := Some b; lastUpdated := lastUpdated d |}).

Definition assign_lastUpdated_right (t : Z) : Handler unit :=
  writeData (fun d =>
    {| left := left d; right := right d;
       lastUpdated := {| lu_left := lu_left (lastUpdated d); lu_right := Some t |} |}).

(** A route handler always ends in a [send]; running it gives the response
    and the state the process is left in. *)
Definition runHandler (h : Handler Empty_set) (w : World) : Response * World :=
  match h w with
  | (Sent r, w') => (r, w')
  | (Next e, _) => match e with end
  end.

(** ** Staleness *)

(** JavaScript truthiness of a [number | null]: [null] and [0] are falsy. *)
Definition truthy (timestamp : option Z) : bool :=
  match timestamp with
  | Some t => negb (t =? 0)
  | None => false
  end.

(** [isDataStale]: the clock is read only when the timestamp is truthy. *)
Definition isDataStale (timestamp : option Z) : Handler bool :=
  match timestamp with
  | None => ret true
  | Some t =>
      if negb (truthy (Some t)) then ret true
      else now <- Date_now ;; ret (STALE_DATA_TIMEOUT_MS <? now - t)
  end.

(** ** POST /presence (the same text in both variants) *)

Definition successBody (d : InternalPresenceData) : JsonValue :=
  JObject
    [ ("success", JBool true);
      ("message", JString "Presence data updated");
      ("data",
        JObject
          [ ("left", jsonOfBool (left d));
            ("right", jsonOfBool (right d));
            ("lastUpdated",
              JObject
                [ ("left", jsonOfNumber (lu_left (lastUpdated d)));
                  ("right", jsonOfNumber (lu_right (lastUpdated d))) ]) ]) ].

Definition errorBody (error message : string) : JsonValue :=
  JObject [ ("error", JString error); ("message", JString message) ].

(** The double-quote character of the first error message. *)
Definition dquote : string := String (Ascii.ascii_of_nat 34) EmptyString.

(** The message of the [TypeError] that [const { left, right } = req.body]
    throws when [req.body] is [undefined]. *)
Definition destructureMessage : string :=
  "Cannot destructure property 'left' of 'req.body' as it is undefined.".

(** The handler, [try] and [catch].  The destructuring of [req.body] is the
    one statement of the [try] block that can throw; the [catch] then
    answers 500 with the message of the error (its [console.error] is not
    part of the answer and is left out). *)
Definition post (reqBody : option Body) : Handler Empty_set :=
  match reqBody with
  | None =>
      send 500 (errorBody "Internal server error" destructureMessage)
  | Some body =>
      match req_left body, req_right body with
      | None, None =>
          send 400 (errorBody "At least one side (left or right) must be specified"
                              ("Please provide " ++ dquote ++ "left" ++ dquote ++ " and/or "
                                 ++ dquote ++ "right" ++ dquote ++ " with boolean values"))
      | l, r =>
          currentTime <- Date_now ;;
          match l with
          | None => ret tt
          | Some (JBool b) => assign_left b ;; assign_lastUpdated_left currentTime
          | Some _ =>
              send 400 (errorBody "Invalid value for left"
                                  "Value must be a boolean (true or false)")
          end ;;
          match r with
          | None => ret tt
          | Some (JBool b) => assign_right b ;; assign_lastUpdated_right currentTime
          | Some _ =>
              send 400 (errorBody "Invalid value for right"
                                  "Value must be a boolean (true or false)")
          end ;;
          d <- readData ;;
          send 200 (successBody d)
      end
  end.

(** ** GET /presence, formatSideData variant

    In both variants the [try] block of the GET handler starts with
    [const { side } = req.query]; [req.query] is always an object, nothing
    in the block throws, and the [catch] is never entered. *)

Module Formatted.
Section WithMoment.

(** [moment(t).tz('America/New_York').format()], a function of the
    moment-timezone library. *)
Variable momentFormat : Z -> string.

(** The [SidePresent] object. *)
Definition sidePresent (present : bool) (lastUpdatedAt : string) (isStale : bool)
  : JsonValue :=
  JObject
    [ ("present", JBool present);
      ("lastUpdatedAt", JString lastUpdatedAt);
      ("isStale", JBool isStale) ].

Definition formatSideData (present : option bool) (timestamp : option Z)
  : Handler JsonValue :=
  stale <- isDataStale timestamp ;;
  ret (sidePresent
         (match present with Some b => b | None => false end)
         (match timestamp with
          | Some t => if truthy timestamp then momentFormat t else "never"
          | None => "never"
          end)
         stale).

Definition get (side : option QueryValue) : Handler Empty_set :=
  d <- readData ;;
  if strictEq side "left" then
    v <- formatSideData (left d) (lu_left (lastUpdated d)) ;;
    send 200 v
  else if strictEq side "right" then
    v <- formatSideData (right d) (lu_right (lastUpdated d)) ;;
    send 200 v
  else
    l <- formatSideData (left d) (lu_left (lastUpdated d)) ;;
    r <- formatSideData (right d) (lu_right (lastUpdated d)) ;;
    send 200 (JObject [ ("left", l); ("right", r) ]).

End WithMoment.
End Formatted.

(** ** GET /presence, sentinel variant *)

Module Sentinel.

Definition notAvailable : JsonValue := JString "not available".

(** [present !== null && !isDataStale(timestamp)]; [&&] does not evaluate
    its right operand when the left one is false. *)
Definition isAvailable (present : option bool) (timestamp : option Z) : Handler bool :=
  match present with
  | None => ret false
  | Some _ => stale <- isDataStale timestamp ;; ret (negb stale)
  end.

(** JavaScript [a || b] on [boolean | null] operands. *)
Definition jsOr (a b : option bool) : option bool :=
  match a with
  | Some true => a
  | _ => b
  end.

Definition sideUnavailable (side message : string) : JsonValue :=
  JObject
    [ ("side", JString side);
      ("presence", notAvailable);
      ("message", JString message) ].

Definition sideAvailable (side : string) (present : option bool) (timestamp : option Z)
  : JsonValue :=
  JObject
    [ ("side", JString side);
      ("presence", jsonOfBool present);
      ("lastUpdated", jsonOfNumber timestamp) ].

Definition get (side : option QueryValue) : Handler Empty_set :=
  d <- readData ;;
  isLeftAvailable <- isAvailable (left d) (lu_left (lastUpdated d)) ;;
  isRightAvailable <- isAvailable (right d) (lu_right (lastUpdated d)) ;;
  if strictEq side "left" then
    if negb isLeftAvailable then
      send 200 (sideUnavailable "left" "No recent data available for left side")
    else
      send 200 (sideAvailable "left" (left d) (lu_left (lastUpdated d)))
  else if strictEq side "right" then
    if negb isRightAvailable then
      send 200 (sideUnavailable "right" "No recent data available for right side")
    else
      send 200 (sideAvailable "right" (right d) (lu_right (lastUpdated d)))
  else if negb isLeftAvailable && negb isRightAvailable then
    send 200 (sideUnavailable "all" "No recent data available for either side")
  else
    let overallPresence :=
      if isLeftAvailable && negb isRightAvailable then left d
      else if negb isLeftAvailable && isRightAvailable then right d
      else jsOr (left d) (right d) in
    send 200
      (JObject
         [ ("side", JString "all");
           ("presence", jsonOfBool overallPresence);
           ("details",
             JObject
               [ ("left", if isLeftAvailable then jsonOfBool (left d) else notAvailable);
                 ("right", if isRightAvailable then jsonOfBool (right d) else notAvailable) ]);
           ("lastUpdated",
             JObject
               [ ("left", jsonOfNumber (lu_left (lastUpdated d)));
                 ("right", jsonOfNumber (lu_right (lastUpdated d))) ]) ]).

End Sentinel.

(** ** Vocabulary of the statements *)

(** The two zones. *)
Inductive Zone : Type := LeftZone | RightZone.

Definition zoneName (z : Zone) : string :=
  match z with LeftZone => "left" | RightZone => "right" end.

Definition zonePresent (z : Zone) (d : InternalPresenceData) : option bool :=
  match z with LeftZone => left d | RightZone => right d end.

Definition zoneUpdated (z : Zone) (d : InternalPresenceData) : option Z :=
  match z with
  | LeftZone => lu_left (lastUpdated d)
  | RightZone => lu_right (lastUpdated d)
  end.

(** [?side=left] and [?side=right]. *)
Definition sideOf (z : Zone) : option QueryValue := Some (QString (zoneName z)).

(** From the current call on, [Date.now()] returns [now]: no time elapses. *)
Definition clockReads (w : World) (now : Z) : Prop :=
  forall k, (ticks w <= k)%nat -> clock w k = now.

(** What [isDataStale] answers when the clock reads [now]. *)
Definition staleAt (now : Z) (timestamp : option Z) : bool :=
  match timestamp with
  | None => true
  | Some t => (t =? 0) || (STALE_DATA_TIMEOUT_MS <? now - t)
  end.

(** Availability of a zone when the clock reads [now]: a stored boolean
    that is not stale. *)
Definition availableAt (now : Z) (present : option bool) (timestamp : option Z) : bool :=
  match present with
  | None => false
  | Some _ => negb (staleAt now timestamp)
  end.

(** A world whose clock stands still at [now]. *)
Definition frozen (now : Z) (d : InternalPresenceData) : World :=
  {| clock := fun _ => now; ticks := 0; presenceData := d |}.

(** A request body that [POST /presence] rejects: neither side supplied, or
    a supplied side that is not a boolean. *)
Definition invalidBody (body : Body) : Prop :=
  (req_left body = None /\ req_right body = None) \/
  (exists v, req_left body = Some v /\ isBoolean v = false) \/
  (exists v, req_right body = Some v /\ isBoolean v = false).

Definition suppliedNonBoolean (supplied : option JsonValue) : bool :=
  match supplied with
  | Some v => negb (isBoolean v)
  | None => false
  end.

(** [invalidBody] as a boolean. *)
Definition rejects (body : Body) : bool :=
  (match req_left body with None => true | Some _ => false end
   && match req_right body with None => true | Some _ => false end)
  || suppliedNonBoolean (req_left body)
  || suppliedNonBoolean (req_right body).

(** Two per-zone views of the formatSideData variant that agree on
    [present] and [lastUpdatedAt] and may differ in [isStale] only; when
    [later] holds the flag can only have gone from [false] to [true]. *)
Definition differInStaleOnly (later : Prop) (v1 v2 : JsonValue) : Prop :=
  exists present lastUpdatedAt s1 s2,
    v1 = Formatted.sidePresent present lastUpdatedAt s1 /\
    v2 = Formatted.sidePresent present lastUpdatedAt s2 /\
    (later -> s1 = true -> s2 = true).

(** The same for a whole answer of the formatSideData variant: one view, or
    the [{left, right}] pair of views. *)
Definition answersDifferInStaleOnly (later : Prop) (v1 v2 : JsonValue) : Prop :=
  differInStaleOnly later v1 v2 \/
  exists l1 r1 l2 r2,
    v1 = JObject [ ("left", l1); ("right", r1) ] /\
    v2 = JObject [ ("left", l2); ("right", r2) ] /\
    differInStaleOnly later l1 l2 /\
    differInStaleOnly later r1 r2.

(** ** The router and the life of the process *)

(** Which of the two route files is deployed; the formatSideData variant
    comes with the formatter of moment-timezone. *)
Inductive Variant : Type :=
| UseFormatted (momentFormat : Z -> string)
| UseSentinel.

(** The two routes the router registers: [router.post('/presence', ..)] and
    [router.get('/presence', ..)]. *)
Inductive Request : Type :=
| PostPresence (reqBody : option Body)
| GetPresence (side : option QueryValue).

Definition route (v : Variant) (req : Request) : Handler Empty_set :=
  match req with
  | PostPresence reqBody => post reqBody
  | GetPresence side =>
      match v with
      | UseFormatted fmt => Formatted.get fmt side
      | UseSentinel => Sentinel.get side
      end
  end.

(** Requests are served one after the other, each handler running to its
    end; the answers come back in the order of the requests. *)
Fixpoint serve (v : Variant) (reqs : list Request) (w : World) : list Response * World :=
  match reqs with
  | [] => ([], w)
  | req :: rest =>
      let (r, w1) := runHandler (route v req) w in
      let (rs, w2) := serve v rest w1 in
      (r :: rs, w2)
  end.

(** The process as it starts: the module-level store, no clock reading yet. *)
Definition start (clk : nat -> Z) : World :=
  {| clock := clk; ticks := 0; presenceData := initialPresenceData |}.

(** The body [{left: b}] or [{right: b}]. *)
Definition bodyFor (z : Zone) (b : bool) : Body :=
  match z with
  | LeftZone => {| req_left := Some (JBool b); req_right := None |}
  | RightZone => {| req_left := None; req_right := Some (JBool b) |}
  end.

Definition otherZone (z : Zone) : Zone :=
  match z with LeftZone => RightZone | RightZone => LeftZone end.

(** The store after zone [z] has been assigned the boolean [b] and the
    timestamp [t]. *)
Definition writeZone (z : Zone) (b : bool) (t : Z) (d : InternalPresenceData)
  : InternalPresenceData :=
  match z with
  | LeftZone =>
      {| left := Some b; right := right d;
         lastUpdated := {| lu_left := Some t; lu_right := lu_right (lastUpdated d) |} |}
  | RightZone =>
      {| left := left d; right := Some b;
         lastUpdated := {| lu_left := lu_left (lastUpdated d); lu_right := Some t |} |}
  end.

(** A zone has a boolean exactly when it has a timestamp. *)
Definition setTogether (d : InternalPresenceData) : Prop :=
  (left d = None <-> lu_left (lastUpdated d) = None) /\
  (right d = None <-> lu_right (lastUpdated d) = None).

(** Every stored timestamp is a reading the clock gave earlier in the life
    of the process. *)
Definition timestampsRecorded (w : World) : Prop :=
  forall z t,
    zoneUpdated z (presenceData w) = Some t ->
    exists k, (k < ticks w)%nat /\ t = clock w k.

(** ** Error handlers of the application (route registration)

    The two error middlewares registered after the routes.  A thrown value
    is any script value; [None] is [undefined].  The calls of the logger do
    not touch the response and are left out.

    The central handler ends in [res.status(status).json(body)].  The model
    stops at that call and records its two arguments: what Express makes
    of them (its [res.status] refuses a code outside 100..999, and it sends
    no body with 204 and 304) is not part of the handler. *)

Module ErrorHandlers.

(** [v?.k]: [undefined] on [null] and [undefined], and on values that have
    no such property. *)
Definition member (k : string) (v : option JsonValue) : option JsonValue :=
  match v with
  | Some o => prop k o
  | None => None
  end.

(** Truthiness of a value, as [!v] and [v || d] test it. *)
Definition truthyValue (v : option JsonValue) : bool :=
  match v with
  | None => false
  | Some JNull => false
  | Some (JBool b) => b
  | Some (JNumber n) => negb (n =? 0)
  | Some (JString s) => negb (String.eqb s "")
  | Some (JArray _) => true
  | Some (JObject _) => true
  end.

(** [v === s] for a string literal [s]. *)
Definition isString (v : option JsonValue) (s : string) : bool :=
  match v with
  | Some (JString t) => String.eqb t s
  | _ => false
  end.

(** What an error middleware does: it answers, or it calls [next(err)]. *)
Inductive Handled : Type :=
| Responded (r : Response)
| PassedOn (err : option JsonValue).

Definition invalidJson : Response :=
  {| status := 400;
     json := JObject [ ("error", JObject [ ("message", JString "Invalid JSON") ]) ] |}.

(** The middleware that normalises body-parser failures. *)
Definition jsonParseErrorHandler (err : option JsonValue) : Handled :=
  if negb (truthyValue err) || negb (isString (member "type" err) "entity.parse.failed")
  then PassedOn err
  else Responded invalidJson.

Section WithNumber.

(** The conversions of [Number(..)] that belong to the language runtime:
    of a string, and of an array or object; [None] is [NaN]. *)
Variable StringToNumber : string -> option Z.
Variable ObjectToNumber : JsonValue -> option Z.

(** [Number(v)] *)
Definition toNumber (v : option JsonValue) : option Z :=
  match v with
  | None => None
  | Some JNull => Some 0
  | Some (JBool b) => Some (if b then 1 else 0)
  | Some (JNumber n) => Some n
  | Some (JString s) => StringToNumber s
  | Some (JArray items) => ObjectToNumber (JArray items)
  | Some (JObject fields) => ObjectToNumber (JObject fields)
  end.

(** The call [res.status(statusArg).json(jsonArg)]. *)
Record ResCall : Type := mkResCall {
  statusArg : Z;
  jsonArg : JsonValue
}.

(** The central error handler; [NODE_ENV] is [process.env.NODE_ENV].  A
    property whose value is [undefined] does not appear in the JSON of
    [body]. *)
Definition centralErrorHandler (NODE_ENV : option string) (err : option JsonValue)
  : ResCall :=
  let isProd :=
    match NODE_ENV with
    | Some s => String.eqb s "production"
    | None => false
    end in
  let status :=
    match toNumber (member "status" err) with
    | Some n => if n =? 0 then 500 else n
    | None => 500
    end in
  let message :=
    match member "message" err with
    | Some m => if truthyValue (Some m) then m else JString "Internal Server Error"
    | None => JString "Internal Server Error"
    end in
  let stack :=
    if negb isProd then
      match member "stack" err with
      | Some s => [ ("stack", s) ]
      | None => []
      end
    else [] in
  {| statusArg := status;
     jsonArg := JObject [ ("error", JObject (("message", message) :: stack)) ] |}.

End WithNumber.
End ErrorHandlers.

(** ** Proof automation *)

(** Case analysis on the two properties of a request body. *)
Ltac by_body body :=
  destruct body as [[[ | ? | ? | ? | ? | ? ]|] [[ | ? | ? | ? | ? | ? ]|]].

(** Unfolding of the POST handler and of the monad. *)
Ltac run_post := cbv [runHandler post bind ret send Date_now readData writeData
  assign_left assign_right assign_lastUpdated_left assign_lastUpdated_right
  req_left req_right fst snd status json presenceData clock ticks left right
  lastUpdated lu_left lu_right].

(** Projections of explicit worlds and stores. *)
Ltac store_simpl :=
  cbn [presenceData left right lastUpdated lu_left lu_right clock ticks fst snd].

(** * Properties *)

(** ** The clock and the monad *)

Lemma STALE_DATA_TIMEOUT_MS_value : STALE_DATA_TIMEOUT_MS = 600000.
Proof. reflexivity. Qed.

Lemma clockReads_now (w : World) (now : Z) :
  clockReads w now -> clock w (ticks w) = now.
Proof. intros H. apply H. apply Nat.le_refl. Qed.

Lemma clockReads_next (w : World) (now : Z) :
  clockReads w now -> clock w (S (ticks w)) = now.
Proof. intros H. apply H. apply Nat.le_succ_diag_r. Qed.

Lemma clockReads_frozen (now : Z) (d : InternalPresenceData) :
  clockReads (frozen now d) now.
Proof. intros k _. reflexivity. Qed.

(** [isDataStale] answers [staleAt] of the reading the clock gives at the
    call, reads the clock at most once and leaves the store alone. *)
Lemma isDataStale_run (timestamp : option Z) (w : World) :
  isDataStale timestamp w =
    (Next (staleAt (clock w (ticks w)) timestamp),
     {| clock := clock w;
        ticks := (if truthy timestamp then S (ticks w) else ticks w);
        presenceData := presenceData w |}).
Proof.
  destruct w as [clk n d].
  destruct timestamp as [t|]; cbn -[Z.ltb Z.sub STALE_DATA_TIMEOUT_MS]; [|reflexivity].
  destruct (Z.eqb_spec t 0) as [->|Hne]; reflexivity.
Qed.

Lemma staleAt_true_iff (now : Z) (timestamp : option Z) :
  staleAt now timestamp = true <->
  match timestamp with
  | None => True
  | Some t => t = 0 \/ now - t > STALE_DATA_TIMEOUT_MS
  end.
Proof.
  destruct timestamp as [t|]; cbn -[Z.ltb Z.sub STALE_DATA_TIMEOUT_MS]; [|tauto].
  rewrite orb_true_iff, Z.eqb_eq, Z.ltb_lt. lia.
Qed.

(** Once stale, stale at every later instant. *)
Lemma staleAt_mono (now1 now2 : Z) (timestamp : option Z) :
  now1 <= now2 -> staleAt now1 timestamp = true -> staleAt now2 timestamp = true.
Proof.
  intros Hle. rewrite !staleAt_true_iff.
  destruct timestamp as [t|]; [lia | tauto].
Qed.

(** ** C2: how staleness is computed *)

(** C2.  Staleness is computed at read time and never stored:
    [isDataStale] leaves the store as it is, and with [now] the reading of
    the clock at the call it classifies a zone as stale exactly when
    [now - lastUpdatedAt > STALE_DATA_TIMEOUT_MS], the timeout being
    600000 ms; a zone with no prior write ([lastUpdatedAt] absent) is stale
    on every read.  A stored timestamp is a reading of [Date.now()]; the
    statement takes it to be other than [0], the one number the guard
    [!timestamp] mistakes for [null]. *)
Theorem isDataStale_classification (w : World) (timestamp : option Z) :
  timestamp <> Some 0 ->
  let now := clock w (ticks w) in
  exists stale : bool,
    fst (isDataStale timestamp w) = Next stale /\
    presenceData (snd (isDataStale timestamp w)) = presenceData w /\
    (stale = true <->
       match timestamp with
       | None => True
       | Some t => now - t > STALE_DATA_TIMEOUT_MS
       end) /\
    (timestamp = None -> stale = true) /\
    STALE_DATA_TIMEOUT_MS = 600000.
Proof.
  intros Hnz now. exists (staleAt now timestamp).
  rewrite isDataStale_run. cbn [fst snd presenceData].
  repeat split.
  - rewrite staleAt_true_iff. destruct timestamp as [t|]; [|trivial].
    intros [->|H]; [exfalso; apply Hnz; reflexivity | exact H].
  - rewrite staleAt_true_iff. destruct timestamp as [t|]; [|trivial].
    intros H. right. exact H.
  - intros ->. reflexivity.
Qed.

Lemma isDataStale_classification_witness :
  Some 1000 <> Some 0 /\
  fst (isDataStale (Some 1000) (frozen 700000 initialPresenceData)) = Next true /\
  fst (isDataStale (Some 1000) (frozen 601000 initialPresenceData)) = Next false.
Proof.
  assert (Hnz : Some 1000 <> Some 0) by discriminate.
  split; [exact Hnz|]. split.
  - destruct (isDataStale_classification (frozen 700000 initialPresenceData)
                (Some 1000) Hnz) as [stale [Hs [_ [Hiff _]]]].
    rewrite Hs. f_equal. apply Hiff. reflexivity.
  - destruct (isDataStale_classification (frozen 601000 initialPresenceData)
                (Some 1000) Hnz) as [stale [Hs [_ [Hiff _]]]].
    rewrite Hs. f_equal. destruct stale; [|reflexivity].
    exfalso. assert (H : 601000 - 1000 > STALE_DATA_TIMEOUT_MS) by (apply Hiff; reflexivity).
    discriminate H.
Defined.

(** ** POST /presence *)

Lemma suppliedNonBoolean_iff (supplied : option JsonValue) :
  suppliedNonBoolean supplied = true <->
  exists v, supplied = Some v /\ isBoolean v = false.
Proof.
  destruct supplied as [v|]; cbn.
  - rewrite negb_true_iff. split.
    + intros H. exists v. split; [reflexivity | exact H].
    + intros [v' [Hv H]]. injection Hv as ->. exact H.
  - split; [discriminate | intros [v [Hv _]]; discriminate Hv].
Qed.

Lemma invalidBody_rejects (body : Body) :
  invalidBody body <-> rejects body = true.
Proof.
  unfold invalidBody, rejects.
  rewrite !orb_true_iff, andb_true_iff, !suppliedNonBoolean_iff.
  destruct (req_left body), (req_right body); cbn; intuition congruence.
Qed.

Lemma post_status (w : World) (body : Body) :
  status (fst (runHandler (post (Some body)) w)) = if rejects body then 400 else 200.
Proof. by_body body; reflexivity. Qed.

(** C3.  What [POST /presence] answers.  With a parsed body: 400, with an
    [{error, message}] body, exactly when neither side is supplied or a
    supplied side is not a boolean; otherwise 200 with [success], the
    message and [data], where [data.left] and [data.right] are the
    supplied booleans (the stored ones for an omitted side) and
    [data.lastUpdated] has the instant read at the call for a supplied
    side (the stored timestamp for an omitted one): [data] is the whole
    store as the call leaves it.  Without a parsed body ([req.body]
    [undefined]) the destructuring throws and the answer is 500,
    ['Internal server error'], not 400; nothing is written. *)
Theorem post_validation (w : World) (reqBody : option Body) :
  let r := fst (runHandler (post reqBody) w) in
  let d := presenceData w in
  let d' := presenceData (snd (runHandler (post reqBody) w)) in
  let now := clock w (ticks w) in
  match reqBody with
  | None =>
      status r = 500 /\
      json r = JObject [ ("error", JString "Internal server error");
                         ("message", JString destructureMessage) ] /\
      d' = d
  | Some body =>
      (status r = 400 <-> invalidBody body) /\
      (status r = 400 -> exists error message,
          json r = JObject [ ("error", JString error); ("message", JString message) ]) /\
      (~ invalidBody body ->
       status r = 200 /\
       json r =
         JObject
           [ ("success", JBool true);
             ("message", JString "Presence data updated");
             ("data",
               JObject
                 [ ("left", match req_left body with
                            | Some v => v
                            | None => jsonOfBool (left d)
                            end);
                   ("right", match req_right body with
                             | Some v => v
                             | None => jsonOfBool (right d)
                             end);
                   ("lastUpdated",
                     JObject
                       [ ("left", match req_left body with
                                  | Some _ => JNumber now
                                  | None => jsonOfNumber (lu_left (lastUpdated d))
                                  end);
                         ("right", match req_right body with
                                   | Some _ => JNumber now
                                   | None => jsonOfNumber (lu_right (lastUpdated d))
                                   end) ]) ]) ] /\
       prop "data" (json r) =
         Some (JObject
                 [ ("left", jsonOfBool (left d'));
                   ("right", jsonOfBool (right d'));
                   ("lastUpdated",
                     JObject
                       [ ("left", jsonOfNumber (lu_left (lastUpdated d')));
                         ("right", jsonOfNumber (lu_right (lastUpdated d'))) ]) ]))
  end.
Proof.
  destruct reqBody as [body|]; cbv zeta.
  - rewrite invalidBody_rejects, post_status.
    split; [|split].
    + destruct (rejects body); split; (reflexivity || discriminate).
    + by_body body; cbn; intros H; try discriminate H;
        do 2 eexists; reflexivity.
    + destruct w as [clk n [l r [tl tr]]].
      by_body body; cbn; intros H; try (exfalso; apply H; reflexivity);
        repeat split.
  - destruct w as [clk n d]. repeat split.
Qed.

(** C5.  Every [POST /presence] that answers 200 had a parsed body, and
    after it every supplied side is a boolean that is now the zone's
    [present], with the instant read at the call as its [lastUpdatedAt];
    an omitted side keeps the [present] and [lastUpdatedAt] it had. *)
Theorem post_success_frame (w : World) (reqBody : option Body) :
  status (fst (runHandler (post reqBody) w)) = 200 ->
  let now := clock w (ticks w) in
  let d := presenceData w in
  let d' := presenceData (snd (runHandler (post reqBody) w)) in
  exists body,
    reqBody = Some body /\
    match req_left body with
    | Some v =>
        exists b, v = JBool b /\ left d' = Some b /\ lu_left (lastUpdated d') = Some now
    | None =>
        left d' = left d /\ lu_left (lastUpdated d') = lu_left (lastUpdated d)
    end /\
    match req_right body with
    | Some v =>
        exists b, v = JBool b /\ right d' = Some b /\ lu_right (lastUpdated d') = Some now
    | None =>
        right d' = right d /\ lu_right (lastUpdated d') = lu_right (lastUpdated d)
    end.
Proof.
  destruct reqBody as [body|]; [|intros H; discriminate H].
  rewrite post_status. destruct w as [clk n [l r [tl tr]]].
  intros H. exists body. split; [reflexivity|]. revert H.
  by_body body; cbn; intros H; try discriminate H;
    repeat split; try (eexists; repeat split).
Qed.

Lemma post_success_frame_witness :
  let w := frozen 5 initialPresenceData in
  let body := {| req_left := Some (JBool true); req_right := None |} in
  let d' := presenceData (snd (runHandler (post (Some body)) w)) in
  (exists b, JBool true = JBool b /\ left d' = Some b /\
             lu_left (lastUpdated d') = Some 5) /\
  right d' = None /\ lu_right (lastUpdated d') = None.
Proof.
  destruct (post_success_frame (frozen 5 initialPresenceData)
              (Some {| req_left := Some (JBool true); req_right := None |}) eq_refl)
    as [body [Hb H]].
  injection Hb as <-. exact H.
Defined.

(** C9.  A [POST /presence] with a boolean [left] and a supplied [right]
    that is not a boolean answers 400, and yet the left zone has been
    written before the answer: its [present] is the given boolean and its
    [lastUpdatedAt] the instant read at the call.  The right zone is as it
    was. *)
Theorem post_not_atomic (w : World) (b : bool) (v : JsonValue) :
  isBoolean v = false ->
  let body := {| req_left := Some (JBool b); req_right := Some v |} in
  let r := fst (runHandler (post (Some body)) w) in
  let d := presenceData w in
  let d' := presenceData (snd (runHandler (post (Some body)) w)) in
  status r = 400 /\
  json r = errorBody "Invalid value for right" "Value must be a boolean (true or false)" /\
  left d' = Some b /\
  lu_left (lastUpdated d') = Some (clock w (ticks w)) /\
  right d' = right d /\
  lu_right (lastUpdated d') = lu_right (lastUpdated d).
Proof.
  intros Hv. destruct w as [clk n [l r [tl tr]]].
  destruct v; try discriminate Hv; cbn; repeat split.
Qed.

Lemma post_not_atomic_witness :
  let w := frozen 7 initialPresenceData in
  let body := {| req_left := Some (JBool true); req_right := Some (JString "yes") |} in
  status (fst (runHandler (post (Some body)) w)) = 400 /\
  left (presenceData (snd (runHandler (post (Some body)) w))) = Some true /\
  lu_left (lastUpdated (presenceData (snd (runHandler (post (Some body)) w)))) = Some 7.
Proof.
  destruct (post_not_atomic (frozen 7 initialPresenceData) true (JString "yes") eq_refl)
    as [Hs [_ [Hl [Ht _]]]].
  split; [exact Hs | split; [exact Hl | exact Ht]].
Defined.

(** C10.  A [POST /presence] with booleans for both sides reads the clock
    once, on entry, and stores that one reading as the [lastUpdatedAt] of
    both zones: the two timestamps are equal after the call, whatever the
    clock does. *)
Theorem post_both_same_instant (w : World) (bl br : bool) :
  let body := {| req_left := Some (JBool bl); req_right := Some (JBool br) |} in
  let w' := snd (runHandler (post (Some body)) w) in
  let d' := presenceData w' in
  status (fst (runHandler (post (Some body)) w)) = 200 /\
  left d' = Some bl /\
  right d' = Some br /\
  lu_left (lastUpdated d') = Some (clock w (ticks w)) /\
  lu_right (lastUpdated d') = lu_left (lastUpdated d') /\
  ticks w' = S (ticks w).
Proof.
  destruct w as [clk n [l r [tl tr]]]. cbn. repeat split.
Qed.

(** ** GET /presence: running the handlers *)

Lemma formatSideData_run (fmt : Z -> string) (present : option bool)
    (timestamp : option Z) (w : World) :
  Formatted.formatSideData fmt present timestamp w =
    (Next (Formatted.sidePresent
             (match present with Some b => b | None => false end)
             (match timestamp with
              | Some t => if t =? 0 then "never" else fmt t
              | None => "never"
              end)
             (staleAt (clock w (ticks w)) timestamp)),
     {| clock := clock w;
        ticks := (if truthy timestamp then S (ticks w) else ticks w);
        presenceData := presenceData w |}).
Proof.
  unfold Formatted.formatSideData, bind. rewrite isDataStale_run.
  unfold ret. destruct timestamp as [t|]; [|reflexivity].
  cbn [truthy]. destruct (t =? 0); reflexivity.
Qed.

Lemma isAvailable_run (present : option bool) (timestamp : option Z) (w : World) :
  Sentinel.isAvailable present timestamp w =
    (Next (availableAt (clock w (ticks w)) present timestamp),
     {| clock := clock w;
        ticks := (match present with
                  | Some _ => if truthy timestamp then S (ticks w) else ticks w
                  | None => ticks w
                  end);
        presenceData := presenceData w |}).
Proof.
  destruct w as [clk n d].
  destruct present as [b|]; [|reflexivity].
  unfold Sentinel.isAvailable, bind. rewrite isDataStale_run. reflexivity.
Qed.

(** A GET handler reads the clock at most twice; when the clock stands at
    [now] it answers as in the world [frozen now]. *)
Lemma Formatted_get_frozen (fmt : Z -> string) (side : option QueryValue)
    (w : World) (now : Z) :
  clockReads w now ->
  fst (runHandler (Formatted.get fmt side) w) =
  fst (runHandler (Formatted.get fmt side) (frozen now (presenceData w))).
Proof.
  intros H. pose proof (clockReads_now _ _ H) as H0.
  pose proof (clockReads_next _ _ H) as H1.
  destruct w as [clk n [l r [tl tr]]]. cbn [clock ticks] in H0, H1.
  unfold runHandler, Formatted.get, bind, readData, send, frozen.
  store_simpl.
  destruct (strictEq side "left"); [|destruct (strictEq side "right")];
    repeat (rewrite formatSideData_run; store_simpl);
    rewrite ?H0; try reflexivity.
  destruct (truthy tl); rewrite ?H0, ?H1; reflexivity.
Qed.

Lemma Sentinel_get_frozen (side : option QueryValue) (w : World) (now : Z) :
  clockReads w now ->
  fst (runHandler (Sentinel.get side) w) =
  fst (runHandler (Sentinel.get side) (frozen now (presenceData w))).
Proof.
  intros H. pose proof (clockReads_now _ _ H) as H0.
  pose proof (clockReads_next _ _ H) as H1.
  destruct w as [clk n [l r [tl tr]]]. cbn [clock ticks] in H0, H1.
  unfold runHandler, Sentinel.get, bind, readData, frozen.
  store_simpl.
  repeat (rewrite isAvailable_run; store_simpl).
  rewrite H0.
  assert (Hr : clk (match l with
                    | Some _ => if truthy tl then S n else n
                    | None => n
                    end) = now)
    by (destruct l; [destruct (truthy tl)|]; assumption).
  rewrite Hr. unfold send.
  destruct (strictEq side "left"), (strictEq side "right"),
    (availableAt now l tl), (availableAt now r tr); reflexivity.
Qed.

(** Both GET handlers leave the store as it is, whatever the clock does. *)
Lemma Formatted_get_pure (fmt : Z -> string) (side : option QueryValue) (w : World) :
  presenceData (snd (runHandler (Formatted.get fmt side) w)) = presenceData w.
Proof.
  destruct w as [clk n d].
  unfold runHandler, Formatted.get, bind, readData, send.
  store_simpl.
  destruct (strictEq side "left"); [|destruct (strictEq side "right")];
    repeat (rewrite formatSideData_run; store_simpl); reflexivity.
Qed.

Lemma Sentinel_get_pure (side : option QueryValue) (w : World) :
  presenceData (snd (runHandler (Sentinel.get side) w)) = presenceData w.
Proof.
  destruct w as [clk n d].
  unfold runHandler, Sentinel.get, bind, readData.
  store_simpl.
  repeat (rewrite isAvailable_run; store_simpl).
  unfold send.
  repeat match goal with |- context [if ?c then _ else _] => destruct c end;
    reflexivity.
Qed.

Lemma strictEq_false (side : option QueryValue) (s : string) :
  side <> Some (QString s) -> strictEq side s = false.
Proof.
  intros H. destruct side as [[t| |]|]; try reflexivity.
  cbn. apply String.eqb_neq. intros ->. apply H. reflexivity.
Qed.

Lemma Formatted_get_status (fmt : Z -> string) (side : option QueryValue) (w : World) :
  status (fst (runHandler (Formatted.get fmt side) w)) = 200.
Proof.
  destruct w as [clk n d].
  unfold runHandler, Formatted.get, bind, readData, send. store_simpl.
  destruct (strictEq side "left"); [|destruct (strictEq side "right")];
    repeat (rewrite formatSideData_run; store_simpl); reflexivity.
Qed.

Lemma Sentinel_get_status (side : option QueryValue) (w : World) :
  status (fst (runHandler (Sentinel.get side) w)) = 200.
Proof.
  destruct w as [clk n d].
  unfold runHandler, Sentinel.get, bind, readData. store_simpl.
  repeat (rewrite isAvailable_run; store_simpl). unfold send.
  repeat match goal with |- context [if ?c then _ else _] => destruct c end;
    reflexivity.
Qed.

(** ** C1: the merged view of the sentinel variant *)

(** C1.  Sentinel variant, no [side] given, clock at [now].  With a zone
    available when its [present] is not [null] and it is not stale at
    [now]: the answer is a 200 whose [presence] is the string
    ['not available'] when neither zone is available, the stored boolean of
    the one available zone when exactly one is, and the disjunction of the
    two stored booleans when both are. *)
Theorem merged_presence_policy (w : World) (now : Z) :
  clockReads w now ->
  let d := presenceData w in
  let r := fst (runHandler (Sentinel.get None) w) in
  status r = 200 /\
  match availableAt now (left d) (lu_left (lastUpdated d)),
        availableAt now (right d) (lu_right (lastUpdated d)) with
  | false, false =>
      prop "presence" (json r) = Some (JString "not available")
  | true, false =>
      exists b, left d = Some b /\ prop "presence" (json r) = Some (JBool b)
  | false, true =>
      exists b, right d = Some b /\ prop "presence" (json r) = Some (JBool b)
  | true, true =>
      exists bl br, left d = Some bl /\ right d = Some br /\
                    prop "presence" (json r) = Some (JBool (bl || br))
  end.
Proof.
  intros H. cbv zeta. split; [apply Sentinel_get_status|].
  rewrite (Sentinel_get_frozen None w now H).
  destruct (presenceData w) as [l r [tl tr]]. store_simpl.
  unfold runHandler, Sentinel.get, bind, readData, frozen. store_simpl.
  repeat (rewrite isAvailable_run; store_simpl). unfold send.
  destruct l as [bl|], r as [br|]; cbn [availableAt];
    destruct (staleAt now tl), (staleAt now tr); cbn;
    try reflexivity;
    try (eexists; split; reflexivity).
  - exists bl, br. destruct bl, br; repeat split.
Qed.

Lemma merged_presence_policy_witness :
  let d := {| left := Some true; right := Some false;
              lastUpdated := {| lu_left := Some 1000; lu_right := Some 2000 |} |} in
  clockReads (frozen 3000 d) 3000 /\
  prop "presence" (json (fst (runHandler (Sentinel.get None) (frozen 3000 d))))
    = Some (JBool true).
Proof.
  split; [apply clockReads_frozen|].
  destruct (merged_presence_policy
              (frozen 3000
                 {| left := Some true; right := Some false;
                    lastUpdated := {| lu_left := Some 1000; lu_right := Some 2000 |} |})
              3000 (clockReads_frozen _ _)) as [_ [bl [br [Hl [Hr Hp]]]]].
  injection Hl as <-. injection Hr as <-. exact Hp.
Defined.

(** ** C7: an unrecognised [side] *)

(** C7.  [GET /presence] answers 200 for every [side] whatsoever, and a
    [side] that is neither ['left'] nor ['right'] (absent, another string,
    an array, an object) is served exactly as an absent one, same answer
    and same state afterwards, in both variants.  That answer is the
    merged view: in the formatSideData variant the object [{left, right}]
    of the two zone views, in the sentinel variant the ['all'] answer,
    ['not available'] when no zone is available and otherwise the overall
    presence with [details] and [lastUpdated].  Each zone is classified at
    the clock reading its own check takes ([first] for the left zone, the
    following reading, if the left check took one, for the right zone). *)
Theorem unrecognized_side_is_merged (fmt : Z -> string) (w : World)
    (side : option QueryValue) :
  side <> Some (QString "left") ->
  side <> Some (QString "right") ->
  let d := presenceData w in
  let tl := lu_left (lastUpdated d) in
  let tr := lu_right (lastUpdated d) in
  let bl := match left d with Some b => b | None => false end in
  let br := match right d with Some b => b | None => false end in
  let first := clock w (ticks w) in
  let secondFormatted := clock w (if truthy tl then S (ticks w) else ticks w) in
  let secondSentinel :=
    clock w (match left d with
             | Some _ => if truthy tl then S (ticks w) else ticks w
             | None => ticks w
             end) in
  let aL := availableAt first (left d) tl in
  let aR := availableAt secondSentinel (right d) tr in
  (forall s, status (fst (runHandler (Formatted.get fmt s) w)) = 200 /\
             status (fst (runHandler (Sentinel.get s) w)) = 200) /\
  runHandler (Formatted.get fmt side) w = runHandler (Formatted.get fmt None) w /\
  runHandler (Sentinel.get side) w = runHandler (Sentinel.get None) w /\
  json (fst (runHandler (Formatted.get fmt side) w)) =
    JObject
      [ ("left",
          JObject
            [ ("present", JBool bl);
              ("lastUpdatedAt",
                JString (match tl with
                         | Some t => if t =? 0 then "never" else fmt t
                         | None => "never"
                         end));
              ("isStale", JBool (staleAt first tl)) ]);
        ("right",
          JObject
            [ ("present", JBool br);
              ("lastUpdatedAt",
                JString (match tr with
                         | Some t => if t =? 0 then "never" else fmt t
                         | None => "never"
                         end));
              ("isStale", JBool (staleAt secondFormatted tr)) ]) ] /\
  json (fst (runHandler (Sentinel.get side) w)) =
    match aL, aR with
    | false, false =>
        JObject
          [ ("side", JString "all");
            ("presence", JString "not available");
            ("message", JString "No recent data available for either side") ]
    | _, _ =>
        JObject
          [ ("side", JString "all");
            ("presence",
              JBool (match aL, aR with
                     | true, false => bl
                     | false, true => br
                     | _, _ => bl || br
                     end));
            ("details",
              JObject
                [ ("left", if aL then JBool bl else JString "not available");
                  ("right", if aR then JBool br else JString "not available") ]);
            ("lastUpdated",
              JObject
                [ ("left", jsonOfNumber tl);
                  ("right", jsonOfNumber tr) ]) ]
    end.
Proof.
  intros Hl Hr. apply strictEq_false in Hl, Hr. cbv zeta.
  split; [intros s; split; [apply Formatted_get_status | apply Sentinel_get_status]|].
  assert (HF : Formatted.get fmt side = Formatted.get fmt None).
  { unfold Formatted.get.
    destruct (strictEq side "left"); [discriminate Hl|].
    destruct (strictEq side "right"); [discriminate Hr|]. reflexivity. }
  assert (HS : Sentinel.get side = Sentinel.get None).
  { unfold Sentinel.get.
    destruct (strictEq side "left"); [discriminate Hl|].
    destruct (strictEq side "right"); [discriminate Hr|]. reflexivity. }
  rewrite HF, HS. split; [reflexivity|]. split; [reflexivity|].
  destruct w as [clk n [l r [tl tr]]]. split.
  - unfold runHandler, Formatted.get, bind, readData, send. store_simpl.
    cbn [strictEq].
    repeat (rewrite formatSideData_run; store_simpl). reflexivity.
  - unfold runHandler, Sentinel.get, bind, readData. store_simpl.
    repeat (rewrite isAvailable_run; store_simpl). unfold send. cbn [strictEq].
    destruct l as [[|]|], r as [[|]|]; cbn [availableAt];
      repeat match goal with
             | |- context [staleAt ?now ?t] => destruct (staleAt now t)
             end;
      reflexivity.
Qed.

Lemma unrecognized_side_is_merged_witness :
  let d := {| left := Some true; right := Some false;
              lastUpdated := {| lu_left := Some 500000; lu_right := Some 1 |} |} in
  let w := frozen 700000 d in
  let side := Some (QString "middle") in
  side <> Some (QString "left") /\
  side <> Some (QString "right") /\
  json (fst (runHandler (Sentinel.get side) w)) =
    JObject
      [ ("side", JString "all");
        ("presence", JBool true);
        ("details",
          JObject [ ("left", JBool true); ("right", JString "not available") ]);
        ("lastUpdated",
          JObject [ ("left", JNumber 500000); ("right", JNumber 1) ]) ] /\
  json (fst (runHandler (Formatted.get (fun _ => "t") side) w)) =
    JObject
      [ ("left", Formatted.sidePresent true "t" false);
        ("right", Formatted.sidePresent false "t" true) ].
Proof.
  assert (Hl : Some (QString "middle") <> Some (QString "left")) by discriminate.
  assert (Hr : Some (QString "middle") <> Some (QString "right")) by discriminate.
  split; [exact Hl|]. split; [exact Hr|].
  destruct (unrecognized_side_is_merged (fun _ => "t")
              (frozen 700000
                 {| left := Some true; right := Some false;
                    lastUpdated := {| lu_left := Some 500000; lu_right := Some 1 |} |})
              (Some (QString "middle")) Hl Hr) as [_ [_ [_ [HF HS]]]].
  split; [exact HS | exact HF].
Defined.

(** ** C4: the per-zone view *)

(** C4, as amended.  Clock at [now], [side] naming a zone.  The
    formatSideData variant answers 200 with [{present, lastUpdatedAt,
    isStale}]: [present] is the stored boolean, [false] if there is none,
    whether or not the zone is stale; [lastUpdatedAt] is the formatted
    timestamp, or ['never'] when the timestamp is [null] (or [0]);
    [isStale] is the staleness at [now]; a zone never written gives
    [false], ['never'], [true].  The sentinel variant answers 200 with
    [{side, presence, lastUpdated}], the stored boolean and the raw
    timestamp, when the zone is available, and with [{side, presence:
    'not available', message}], without the stored boolean, when it is
    not. *)
Theorem per_zone_view (fmt : Z -> string) (w : World) (now : Z) (z : Zone) :
  clockReads w now ->
  let d := presenceData w in
  let present := zonePresent z d in
  let updated := zoneUpdated z d in
  fst (runHandler (Formatted.get fmt (sideOf z)) w) =
    {| status := 200;
       json := Formatted.sidePresent
                 (match present with Some b => b | None => false end)
                 (match updated with
                  | Some t => if t =? 0 then "never" else fmt t
                  | None => "never"
                  end)
                 (staleAt now updated) |} /\
  (present = None -> updated = None ->
   fst (runHandler (Formatted.get fmt (sideOf z)) w) =
     {| status := 200; json := Formatted.sidePresent false "never" true |}) /\
  fst (runHandler (Sentinel.get (sideOf z)) w) =
    {| status := 200;
       json := if availableAt now present updated
               then Sentinel.sideAvailable (zoneName z) present updated
               else Sentinel.sideUnavailable (zoneName z)
                      ("No recent data available for " ++ zoneName z ++ " side") |}.
Proof.
  intros H. cbv zeta.
  assert (HF : fst (runHandler (Formatted.get fmt (sideOf z)) w) =
    {| status := 200;
       json := Formatted.sidePresent
                 (match zonePresent z (presenceData w) with Some b => b | None => false end)
                 (match zoneUpdated z (presenceData w) with
                  | Some t => if t =? 0 then "never" else fmt t
                  | None => "never"
                  end)
                 (staleAt now (zoneUpdated z (presenceData w))) |}).
  { rewrite (Formatted_get_frozen fmt _ w now H).
    destruct (presenceData w) as [l r [tl tr]].
    unfold runHandler, Formatted.get, bind, readData, send, frozen.
    destruct z; cbn [sideOf zoneName strictEq String.eqb Ascii.eqb Bool.eqb];
      store_simpl; rewrite formatSideData_run; reflexivity. }
  split; [exact HF|]. split.
  - intros Hp Hu. rewrite HF, Hp, Hu. reflexivity.
  - rewrite (Sentinel_get_frozen _ w now H).
    destruct (presenceData w) as [l r [tl tr]].
    unfold runHandler, Sentinel.get, bind, readData, frozen. store_simpl.
    repeat (rewrite isAvailable_run; store_simpl). unfold send.
    destruct z; cbn [sideOf zoneName strictEq String.eqb Ascii.eqb Bool.eqb
                     zonePresent zoneUpdated];
      store_simpl;
      match goal with |- context [if negb ?c then _ else _] => destruct c end;
      reflexivity.
Qed.

Lemma per_zone_view_witness :
  let d := {| left := Some true; right := None;
              lastUpdated := {| lu_left := Some 1; lu_right := None |} |} in
  clockReads (frozen 700000 d) 700000 /\
  fst (runHandler (Formatted.get (fun _ => "1970-01-01T00:00:00-05:00")
                     (sideOf LeftZone)) (frozen 700000 d)) =
    {| status := 200;
       json := Formatted.sidePresent true "1970-01-01T00:00:00-05:00" true |}.
Proof.
  split; [apply clockReads_frozen|].
  exact (proj1 (per_zone_view (fun _ => "1970-01-01T00:00:00-05:00")
                  (frozen 700000
                     {| left := Some true; right := None;
                        lastUpdated := {| lu_left := Some 1; lu_right := None |} |})
                  700000 LeftZone (clockReads_frozen _ _))).
Defined.

(** C4, as stated, fails in the sentinel variant: a left zone written
    [true] at instant 1 and read at instant 700000 is stale, and the answer
    to [?side=left] is not a [{present, lastUpdatedAt, isStale}] view
    carrying the last-known boolean. *)
Lemma sentinel_side_view_omits_boolean :
  ~ exists lastUpdatedAt isStale,
      json (fst (runHandler (Sentinel.get (sideOf LeftZone))
                   (frozen 700000
                      {| left := Some true; right := None;
                         lastUpdated := {| lu_left := Some 1; lu_right := None |} |})))
      = Formatted.sidePresent true lastUpdatedAt isStale.
Proof.
  intros [t [s H]]. vm_compute in H. discriminate H.
Qed.

(** ** C6: a write followed by a read *)

(** C6.  For every boolean [b], [POST /presence] of [{left: b}] followed at
    once (the clock reads the same instant at the write and at the read)
    by [GET /presence?side=left] in the formatSideData variant gives a view
    with [present = b] and [isStale = false].  The instant is a reading of
    [Date.now()], taken to be other than [0]. *)
Theorem post_then_get_left (fmt : Z -> string) (w : World) (b : bool) :
  clock w (ticks w) <> 0 ->
  clock w (S (ticks w)) = clock w (ticks w) ->
  let body := {| req_left := Some (JBool b); req_right := None |} in
  let w1 := snd (runHandler (post (Some body)) w) in
  let r := fst (runHandler (Formatted.get fmt (Some (QString "left"))) w1) in
  status (fst (runHandler (post (Some body)) w)) = 200 /\
  status r = 200 /\
  prop "present" (json r) = Some (JBool b) /\
  prop "isStale" (json r) = Some (JBool false) /\
  json r = Formatted.sidePresent b (fmt (clock w (ticks w))) false.
Proof.
  intros Hnz Hsame. destruct w as [clk n [l r [tl tr]]].
  cbn [clock ticks] in Hnz, Hsame. cbv zeta.
  assert (Hget :
    json (fst (runHandler (Formatted.get fmt (Some (QString "left")))
                 (snd (runHandler (post (Some {| req_left := Some (JBool b); req_right := None |}))
                         {| clock := clk; ticks := n;
                            presenceData :=
                              {| left := l; right := r;
                                 lastUpdated := {| lu_left := tl; lu_right := tr |} |} |}))))
    = Formatted.sidePresent b (fmt (clk n)) false).
  { run_post. unfold Formatted.get, bind, readData, send.
    cbn [strictEq String.eqb Ascii.eqb Bool.eqb]. store_simpl.
    rewrite formatSideData_run. store_simpl.
    cbn [staleAt]. rewrite Hsame.
    destruct (Z.eqb_spec (clk n) 0) as [E|_]; [contradiction|].
    rewrite Z.sub_diag. reflexivity. }
  split; [reflexivity|]. split; [apply Formatted_get_status|].
  rewrite Hget. repeat split.
Qed.

Lemma post_then_get_left_witness :
  let w := frozen 1700000000000 initialPresenceData in
  let body := {| req_left := Some (JBool true); req_right := None |} in
  let r := fst (runHandler (Formatted.get (fun _ => "t") (Some (QString "left")))
                  (snd (runHandler (post (Some body)) w))) in
  clock w (ticks w) <> 0 /\
  prop "present" (json r) = Some (JBool true) /\
  prop "isStale" (json r) = Some (JBool false).
Proof.
  assert (Hnz : clock (frozen 1700000000000 initialPresenceData)
                  (ticks (frozen 1700000000000 initialPresenceData)) <> 0)
    by discriminate.
  split; [exact Hnz|].
  destruct (post_then_get_left (fun _ => "t") (frozen 1700000000000 initialPresenceData)
              true Hnz eq_refl) as [_ [_ [Hp [Hs _]]]].
  split; [exact Hp | exact Hs].
Defined.

(** ** C8: reads do not write *)

Lemma Formatted_get_clockReads (fmt : Z -> string) (side : option QueryValue)
    (w : World) (now : Z) :
  clockReads w now ->
  clockReads (snd (runHandler (Formatted.get fmt side) w)) now.
Proof.
  intros H. destruct w as [clk n [l r [tl tr]]].
  unfold runHandler, Formatted.get, bind, readData, send. store_simpl.
  destruct (strictEq side "left"); [|destruct (strictEq side "right")];
    repeat (rewrite formatSideData_run; store_simpl);
    repeat match goal with |- context [if ?c then _ else _] => destruct c end;
    intros k Hk; apply H; cbn [ticks] in *; lia.
Qed.

Lemma Sentinel_get_clockReads (side : option QueryValue) (w : World) (now : Z) :
  clockReads w now ->
  clockReads (snd (runHandler (Sentinel.get side) w)) now.
Proof.
  intros H. destruct w as [clk n [l r [tl tr]]].
  unfold runHandler, Sentinel.get, bind, readData. store_simpl.
  repeat (rewrite isAvailable_run; store_simpl). unfold send.
  destruct l, r;
    repeat match goal with |- context [if ?c then _ else _] => destruct c end;
    intros k Hk; apply H; cbn [ticks snd] in *; lia.
Qed.

Lemma Formatted_get_answers (fmt : Z -> string) (side : option QueryValue)
    (d : InternalPresenceData) (now1 now2 : Z) :
  answersDifferInStaleOnly (now1 <= now2)
    (json (fst (runHandler (Formatted.get fmt side) (frozen now1 d))))
    (json (fst (runHandler (Formatted.get fmt side) (frozen now2 d)))).
Proof.
  assert (Hone : forall present updated,
    differInStaleOnly (now1 <= now2)
      (Formatted.sidePresent (match present with Some b => b | None => false end)
         (match updated with
          | Some t => if t =? 0 then "never" else fmt t
          | None => "never"
          end) (staleAt now1 updated))
      (Formatted.sidePresent (match present with Some b => b | None => false end)
         (match updated with
          | Some t => if t =? 0 then "never" else fmt t
          | None => "never"
          end) (staleAt now2 updated))).
  { intros present updated. do 4 eexists. split; [reflexivity|].
    split; [reflexivity|]. apply staleAt_mono. }
  destruct d as [l r [tl tr]].
  unfold runHandler, Formatted.get, bind, readData, send, frozen. store_simpl.
  destruct (strictEq side "left"); [|destruct (strictEq side "right")];
    repeat (rewrite formatSideData_run; store_simpl); cbn [json].
  - left. apply Hone.
  - left. apply Hone.
  - right. do 4 eexists. split; [reflexivity|]. split; [reflexivity|].
    split; apply Hone.
Qed.

Lemma Sentinel_get_same_staleness (side : option QueryValue)
    (d : InternalPresenceData) (now1 now2 : Z) :
  (forall z, staleAt now1 (zoneUpdated z d) = staleAt now2 (zoneUpdated z d)) ->
  fst (runHandler (Sentinel.get side) (frozen now1 d)) =
  fst (runHandler (Sentinel.get side) (frozen now2 d)).
Proof.
  intros Hz. pose proof (Hz LeftZone) as HL. pose proof (Hz RightZone) as HR.
  destruct d as [l r [tl tr]]. cbn [zoneUpdated lastUpdated lu_left lu_right] in HL, HR.
  unfold runHandler, Sentinel.get, bind, readData, frozen. store_simpl.
  repeat (rewrite isAvailable_run; store_simpl).
  unfold availableAt. rewrite HL, HR. unfold send.
  repeat match goal with |- context [if ?c then _ else _] => destruct c end;
    reflexivity.
Qed.

(** C8, as amended.  [GET /presence] never writes the store, in either
    variant; a read that follows another read, with the clock still at the
    same instant, gives the same answer, and so do two reads of equal
    stores at the same instant.  Across instants: in the formatSideData
    variant the two answers agree on everything but [isStale], which can
    only go from [false] to [true] as time advances; in the sentinel
    variant, whose answers have no [isStale] field, the two answers are
    equal whenever each zone is classified the same (stale or not) at both
    instants. *)
Theorem get_is_a_pure_read (fmt : Z -> string) (w1 w2 : World) (now1 now2 : Z)
    (side : option QueryValue) :
  presenceData w1 = presenceData w2 ->
  clockReads w1 now1 ->
  clockReads w2 now2 ->
  let d := presenceData w1 in
  let formatted w := runHandler (Formatted.get fmt side) w in
  let sentinel w := runHandler (Sentinel.get side) w in
  (presenceData (snd (formatted w1)) = d /\ presenceData (snd (sentinel w1)) = d) /\
  (fst (formatted (snd (formatted w1))) = fst (formatted w1) /\
   fst (sentinel (snd (sentinel w1))) = fst (sentinel w1)) /\
  (now1 = now2 ->
   fst (formatted w1) = fst (formatted w2) /\ fst (sentinel w1) = fst (sentinel w2)) /\
  (status (fst (formatted w1)) = status (fst (formatted w2)) /\
   answersDifferInStaleOnly (now1 <= now2)
     (json (fst (formatted w1))) (json (fst (formatted w2)))) /\
  ((forall z, staleAt now1 (zoneUpdated z d) = staleAt now2 (zoneUpdated z d)) ->
   fst (sentinel w1) = fst (sentinel w2)).
Proof.
  intros Hd H1 H2. cbv beta zeta.
  split; [split; [apply Formatted_get_pure | apply Sentinel_get_pure]|].
  split.
  { split.
    - rewrite (Formatted_get_frozen fmt side _ now1
                 (Formatted_get_clockReads fmt side w1 now1 H1)).
      rewrite Formatted_get_pure. symmetry. apply Formatted_get_frozen, H1.
    - rewrite (Sentinel_get_frozen side _ now1
                 (Sentinel_get_clockReads side w1 now1 H1)).
      rewrite Sentinel_get_pure. symmetry. apply Sentinel_get_frozen, H1. }
  rewrite (Formatted_get_frozen fmt side w1 now1 H1),
          (Formatted_get_frozen fmt side w2 now2 H2),
          (Sentinel_get_frozen side w1 now1 H1),
          (Sentinel_get_frozen side w2 now2 H2), <- Hd.
  split; [intros ->; split; reflexivity|].
  split; [split|].
  - rewrite !Formatted_get_status. reflexivity.
  - apply Formatted_get_answers.
  - apply Sentinel_get_same_staleness.
Qed.

Lemma get_is_a_pure_read_witness :
  let d := {| left := Some true; right := None;
              lastUpdated := {| lu_left := Some 1; lu_right := None |} |} in
  let formatted w :=
    runHandler (Formatted.get (fun _ => "t") (sideOf LeftZone)) w in
  clockReads (frozen 2 d) 2 /\
  clockReads (frozen 700000 d) 700000 /\
  presenceData (snd (formatted (frozen 2 d))) = d /\
  answersDifferInStaleOnly (2 <= 700000)
    (json (fst (formatted (frozen 2 d)))) (json (fst (formatted (frozen 700000 d)))).
Proof.
  split; [apply clockReads_frozen|]. split; [apply clockReads_frozen|].
  destruct (get_is_a_pure_read (fun _ => "t")
              (frozen 2 {| left := Some true; right := None;
                           lastUpdated := {| lu_left := Some 1; lu_right := None |} |})
              (frozen 700000 {| left := Some true; right := None;
                                lastUpdated := {| lu_left := Some 1; lu_right := None |} |})
              2 700000 (sideOf LeftZone) eq_refl
              (clockReads_frozen _ _) (clockReads_frozen _ _))
    as [[Hp _] [_ [_ [[_ Ha] _]]]].
  split; [exact Hp | exact Ha].
Defined.

(** C8, as stated, fails in the sentinel variant: between instant 2 and
    instant 700000 the left zone written at instant 1 turns stale, and the
    answers to [?side=left] differ in [presence], a field other than
    [isStale]. *)
Lemma sentinel_fields_change_across_instants :
  let d := {| left := Some true; right := None;
              lastUpdated := {| lu_left := Some 1; lu_right := None |} |} in
  let r1 := fst (runHandler (Sentinel.get (sideOf LeftZone)) (frozen 2 d)) in
  let r2 := fst (runHandler (Sentinel.get (sideOf LeftZone)) (frozen 700000 d)) in
  ~ (forall k, k <> "isStale" -> prop k (json r1) = prop k (json r2)).
Proof.
  cbv zeta. intros H.
  assert (Hk : "presence" <> "isStale") by discriminate.
  specialize (H "presence" Hk). vm_compute in H. discriminate H.
Qed.

(** * Further properties of the presence routes *)

(** ** A write followed by a read, with time passing *)

Lemma post_bodyFor_run (z : Zone) (b : bool) (w : World) :
  runHandler (post (Some (bodyFor z b))) w =
    ({| status := 200;
        json := successBody (writeZone z b (clock w (ticks w)) (presenceData w)) |},
     {| clock := clock w;
        ticks := S (ticks w);
        presenceData := writeZone z b (clock w (ticks w)) (presenceData w) |}).
Proof. destruct w as [clk n [l r [tl tr]]]. destruct z; reflexivity. Qed.

Lemma zonePresent_writeZone (z : Zone) (b : bool) (t : Z) (d : InternalPresenceData) :
  zonePresent z (writeZone z b t d) = Some b /\
  zoneUpdated z (writeZone z b t d) = Some t /\
  zonePresent (otherZone z) (writeZone z b t d) = zonePresent (otherZone z) d /\
  zoneUpdated (otherZone z) (writeZone z b t d) = zoneUpdated (otherZone z) d.
Proof. destruct z; repeat split. Qed.

Lemma Formatted_get_side (fmt : Z -> string) (z : Zone) (w : World) :
  fst (runHandler (Formatted.get fmt (sideOf z)) w) =
    {| status := 200;
       json := Formatted.sidePresent
                 (match zonePresent z (presenceData w) with Some b => b | None => false end)
                 (match zoneUpdated z (presenceData w) with
                  | Some t => if t =? 0 then "never" else fmt t
                  | None => "never"
                  end)
                 (staleAt (clock w (ticks w)) (zoneUpdated z (presenceData w))) |}.
Proof.
  destruct w as [clk n [l r [tl tr]]].
  unfold runHandler, Formatted.get, bind, readData, send.
  destruct z; cbn [sideOf zoneName strictEq String.eqb Ascii.eqb Bool.eqb];
    store_simpl; rewrite formatSideData_run; reflexivity.
Qed.

Lemma Sentinel_get_side_frozen (z : Zone) (d : InternalPresenceData) (now : Z) :
  fst (runHandler (Sentinel.get (sideOf z)) (frozen now d)) =
    {| status := 200;
       json := if availableAt now (zonePresent z d) (zoneUpdated z d)
               then Sentinel.sideAvailable (zoneName z) (zonePresent z d) (zoneUpdated z d)
               else Sentinel.sideUnavailable (zoneName z)
                      ("No recent data available for " ++ zoneName z ++ " side") |}.
Proof.
  destruct d as [l r [tl tr]].
  unfold runHandler, Sentinel.get, bind, readData, frozen. store_simpl.
  repeat (rewrite isAvailable_run; store_simpl). unfold send.
  destruct z; cbn [sideOf zoneName strictEq String.eqb Ascii.eqb Bool.eqb
                   zonePresent zoneUpdated];
    store_simpl;
    match goal with |- context [if negb ?c then _ else _] => destruct c end;
    reflexivity.
Qed.

Lemma staleAt_written (now t : Z) :
  t <> 0 -> staleAt now (Some t) = (STALE_DATA_TIMEOUT_MS <? now - t).
Proof.
  intros Hnz. unfold staleAt.
  destruct (Z.eqb_spec t 0) as [E|_]; [contradiction | reflexivity].
Qed.

(** X1.  formatSideData variant.  After [POST /presence] of [{z: b}] at a
    nonzero instant, [GET /presence?side=z] answers with [present = b], the
    formatted instant of the write, and [isStale] true exactly when more
    than [STALE_DATA_TIMEOUT_MS] have elapsed between the two clock
    readings: at exactly 600000 ms the zone is still fresh, and a stale
    zone keeps reporting [b]. *)
Theorem write_then_read_formatted (fmt : Z -> string) (w : World) (z : Zone) (b : bool) :
  clock w (ticks w) <> 0 ->
  let written := clock w (ticks w) in
  let read := clock w (S (ticks w)) in
  let w1 := snd (runHandler (post (Some (bodyFor z b))) w) in
  fst (runHandler (Formatted.get fmt (sideOf z)) w1) =
    {| status := 200;
       json := Formatted.sidePresent b (fmt written)
                 (STALE_DATA_TIMEOUT_MS <? read - written) |} /\
  (read - written = 600000 ->
   prop "isStale" (json (fst (runHandler (Formatted.get fmt (sideOf z)) w1)))
     = Some (JBool false)) /\
  (read - written = 600001 ->
   prop "isStale" (json (fst (runHandler (Formatted.get fmt (sideOf z)) w1)))
     = Some (JBool true)).
Proof.
  intros Hnz. cbv zeta.
  rewrite post_bodyFor_run, Formatted_get_side. cbn [snd presenceData clock ticks].
  destruct (zonePresent_writeZone z b (clock w (ticks w)) (presenceData w))
    as [Hp [Hu _]].
  rewrite Hp, Hu, (staleAt_written _ _ Hnz).
  destruct (Z.eqb_spec (clock w (ticks w)) 0) as [E|_]; [contradiction|].
  split; [reflexivity|].
  split; intros ->; reflexivity.
Qed.

Lemma write_then_read_formatted_witness :
  let w := {| clock := fun k => if Nat.eqb k 0 then 1000 else 601000;
              ticks := 0; presenceData := initialPresenceData |} in
  clock w (ticks w) <> 0 /\
  fst (runHandler (Formatted.get (fun _ => "t") (sideOf RightZone))
         (snd (runHandler (post (Some (bodyFor RightZone true))) w))) =
    {| status := 200; json := Formatted.sidePresent true "t" false |}.
Proof.
  assert (Hnz : clock {| clock := fun k => if Nat.eqb k 0 then 1000 else 601000;
                         ticks := 0; presenceData := initialPresenceData |} 0%nat <> 0)
    by discriminate.
  split; [exact Hnz|].
  exact (proj1 (write_then_read_formatted (fun _ => "t")
                  {| clock := fun k => if Nat.eqb k 0 then 1000 else 601000;
                     ticks := 0; presenceData := initialPresenceData |}
                  RightZone true Hnz)).
Defined.

(** X2.  Sentinel variant.  After [POST /presence] of [{z: b}] at a nonzero
    instant [written], a [GET /presence?side=z] while the clock stands at
    [read] answers [{side, presence: b, lastUpdated: written}] as long as at
    most [STALE_DATA_TIMEOUT_MS] have elapsed, and [{side, presence:
    'not available', message}] afterwards. *)
Theorem write_then_read_sentinel (w : World) (z : Zone) (b : bool) (read : Z) :
  clock w (ticks w) <> 0 ->
  clockReads (snd (runHandler (post (Some (bodyFor z b))) w)) read ->
  let written := clock w (ticks w) in
  fst (runHandler (Sentinel.get (sideOf z)) (snd (runHandler (post (Some (bodyFor z b))) w))) =
    {| status := 200;
       json := if STALE_DATA_TIMEOUT_MS <? read - written
               then Sentinel.sideUnavailable (zoneName z)
                      ("No recent data available for " ++ zoneName z ++ " side")
               else Sentinel.sideAvailable (zoneName z) (Some b) (Some written) |}.
Proof.
  intros Hnz Hread. cbv zeta.
  rewrite (Sentinel_get_frozen _ _ read Hread), Sentinel_get_side_frozen.
  rewrite post_bodyFor_run. cbn [snd presenceData].
  destruct (zonePresent_writeZone z b (clock w (ticks w)) (presenceData w))
    as [Hp [Hu _]].
  rewrite Hp, Hu. cbn [availableAt]. rewrite (staleAt_written _ _ Hnz).
  destruct (STALE_DATA_TIMEOUT_MS <? read - clock w (ticks w)); reflexivity.
Qed.

Lemma write_then_read_sentinel_witness :
  let w := {| clock := fun k => if Nat.eqb k 0 then 1000 else 700000;
              ticks := 0; presenceData := initialPresenceData |} in
  clock w (ticks w) <> 0 /\
  fst (runHandler (Sentinel.get (sideOf LeftZone))
         (snd (runHandler (post (Some (bodyFor LeftZone true))) w))) =
    {| status := 200;
       json := Sentinel.sideUnavailable "left" "No recent data available for left side" |}.
Proof.
  assert (Hnz : clock {| clock := fun k => if Nat.eqb k 0 then 1000 else 700000;
                         ticks := 0; presenceData := initialPresenceData |} 0%nat <> 0)
    by discriminate.
  split; [exact Hnz|].
  refine (write_then_read_sentinel
            {| clock := fun k => if Nat.eqb k 0 then 1000 else 700000;
               ticks := 0; presenceData := initialPresenceData |}
            LeftZone true 700000 Hnz _).
  intros k Hk. cbn in Hk |- *. destruct k; [inversion Hk | reflexivity].
Defined.

(** ** The merged view of the sentinel variant *)

Lemma Sentinel_get_merged_frozen (d : InternalPresenceData) (now : Z) :
  let aL := availableAt now (left d) (lu_left (lastUpdated d)) in
  let aR := availableAt now (right d) (lu_right (lastUpdated d)) in
  fst (runHandler (Sentinel.get None) (frozen now d)) =
    {| status := 200;
       json :=
         if negb aL && negb aR then
           Sentinel.sideUnavailable "all" "No recent data available for either side"
         else
           JObject
             [ ("side", JString "all");
               ("presence",
                 jsonOfBool (if aL && negb aR then left d
                             else if negb aL && aR then right d
                             else Sentinel.jsOr (left d) (right d)));
               ("details",
                 JObject
                   [ ("left", if aL then jsonOfBool (left d) else Sentinel.notAvailable);
                     ("right", if aR then jsonOfBool (right d) else Sentinel.notAvailable) ]);
               ("lastUpdated",
                 JObject
                   [ ("left", jsonOfNumber (lu_left (lastUpdated d)));
                     ("right", jsonOfNumber (lu_right (lastUpdated d))) ]) ] |}.
Proof.
  destruct d as [l r [tl tr]]. cbv zeta.
  unfold runHandler, Sentinel.get, bind, readData, frozen. store_simpl.
  repeat (rewrite isAvailable_run; store_simpl). unfold send.
  cbn [strictEq].
  destruct (availableAt now l tl), (availableAt now r tr); reflexivity.
Qed.

(** X3.  Sentinel variant, the other zone never written.  After
    [POST /presence] of [{z: b}] at a nonzero instant, the merged
    [GET /presence] read within the timeout reports [presence = b], the
    written zone as [b] and the other zone as ['not available'] in
    [details]; read after the timeout it reports [presence] as
    ['not available'] and carries no [details]. *)
Theorem merged_after_one_write (w : World) (z : Zone) (b : bool) (read : Z) :
  zonePresent (otherZone z) (presenceData w) = None ->
  clock w (ticks w) <> 0 ->
  clockReads (snd (runHandler (post (Some (bodyFor z b))) w)) read ->
  let written := clock w (ticks w) in
  let answer :=
    json (fst (runHandler (Sentinel.get None)
                 (snd (runHandler (post (Some (bodyFor z b))) w)))) in
  if STALE_DATA_TIMEOUT_MS <? read - written then
    prop "presence" answer = Some Sentinel.notAvailable /\
    prop "details" answer = None
  else
    prop "presence" answer = Some (JBool b) /\
    exists details,
      prop "details" answer = Some details /\
      prop (zoneName z) details = Some (JBool b) /\
      prop (zoneName (otherZone z)) details = Some Sentinel.notAvailable.
Proof.
  intros Hother Hnz Hread. cbv zeta.
  rewrite (Sentinel_get_frozen _ _ read Hread), Sentinel_get_merged_frozen.
  rewrite post_bodyFor_run. cbn [snd presenceData json].
  destruct w as [clk n [l r [tl tr]]]. cbn [clock ticks presenceData] in *.
  destruct z; cbn [otherZone zonePresent left right] in Hother; subst;
    cbn [writeZone left right lastUpdated lu_left lu_right availableAt
         zoneName otherZone];
    rewrite (staleAt_written _ _ Hnz);
    destruct (STALE_DATA_TIMEOUT_MS <? read - clk n); cbn;
    (split; [reflexivity|]); try reflexivity;
    eexists; repeat split.
Qed.

Lemma merged_after_one_write_witness :
  let w := {| clock := fun k => if Nat.eqb k 0 then 1000 else 2000;
              ticks := 0; presenceData := initialPresenceData |} in
  let answer :=
    json (fst (runHandler (Sentinel.get None)
                 (snd (runHandler (post (Some (bodyFor LeftZone true))) w)))) in
  clock w (ticks w) <> 0 /\ prop "presence" answer = Some (JBool true).
Proof.
  assert (Hnz : clock {| clock := fun k => if Nat.eqb k 0 then 1000 else 2000;
                         ticks := 0; presenceData := initialPresenceData |} 0%nat <> 0)
    by discriminate.
  split; [exact Hnz|].
  assert (Hread : clockReads
            (snd (runHandler (post (Some (bodyFor LeftZone true)))
                    {| clock := fun k => if Nat.eqb k 0 then 1000 else 2000;
                       ticks := 0; presenceData := initialPresenceData |})) 2000).
  { intros k Hk. cbn in Hk |- *. destruct k; [inversion Hk | reflexivity]. }
  exact (proj1 (merged_after_one_write
                  {| clock := fun k => if Nat.eqb k 0 then 1000 else 2000;
                     ticks := 0; presenceData := initialPresenceData |}
                  LeftZone true 2000 eq_refl Hnz Hread)).
Defined.

(** X4.  Sentinel variant, any store, any clock, any [side]: the [presence]
    of the answer is a boolean or the string ['not available'], never
    [null].  The stored [boolean | null] is only ever sent for a zone whose
    value is not [null]. *)
Theorem sentinel_presence_never_null (w : World) (side : option QueryValue) :
  exists v,
    prop "presence" (json (fst (runHandler (Sentinel.get side) w))) = Some v /\
    (v = Sentinel.notAvailable \/ exists b, v = JBool b).
Proof.
  destruct w as [clk n [l r [tl tr]]].
  unfold runHandler, Sentinel.get, bind, readData. store_simpl.
  repeat (rewrite isAvailable_run; store_simpl). unfold send.
  destruct (strictEq side "left"); [|destruct (strictEq side "right")];
    destruct l as [[|]|], r as [[|]|]; cbn [availableAt];
    repeat match goal with
           | |- context [staleAt ?now ?t] => destruct (staleAt now t)
           end;
    cbn; eexists; (split; [reflexivity|]);
    first [left; reflexivity | right; eexists; reflexivity].
Qed.

(** X5.  Sentinel variant, no [side] given, clock at [now].  When at least
    one zone is available the answer lists every zone in [details], with
    its boolean if it is available and ['not available'] if not, and gives
    the raw timestamps of both zones in [lastUpdated], the unavailable one
    included.  When no zone is available the answer has neither [details]
    nor [lastUpdated]. *)
Theorem merged_details (w : World) (now : Z) :
  clockReads w now ->
  let d := presenceData w in
  let aL := availableAt now (left d) (lu_left (lastUpdated d)) in
  let aR := availableAt now (right d) (lu_right (lastUpdated d)) in
  let answer := json (fst (runHandler (Sentinel.get None) w)) in
  if aL || aR then
    prop "details" answer =
      Some (JObject
              [ ("left", if aL then jsonOfBool (left d) else Sentinel.notAvailable);
                ("right", if aR then jsonOfBool (right d) else Sentinel.notAvailable) ]) /\
    prop "lastUpdated" answer =
      Some (JObject
              [ ("left", jsonOfNumber (lu_left (lastUpdated d)));
                ("right", jsonOfNumber (lu_right (lastUpdated d))) ])
  else
    prop "details" answer = None /\ prop "lastUpdated" answer = None.
Proof.
  intros H. cbv zeta.
  rewrite (Sentinel_get_frozen None w now H), Sentinel_get_merged_frozen.
  cbn [json].
  destruct (availableAt now (left (presenceData w)) (lu_left (lastUpdated (presenceData w)))),
           (availableAt now (right (presenceData w)) (lu_right (lastUpdated (presenceData w))));
    split; reflexivity.
Qed.

Lemma merged_details_witness :
  let d := {| left := Some false; right := Some true;
              lastUpdated := {| lu_left := Some 500000; lu_right := Some 1 |} |} in
  clockReads (frozen 700000 d) 700000 /\
  prop "details" (json (fst (runHandler (Sentinel.get None) (frozen 700000 d)))) =
    Some (JObject [ ("left", JBool false); ("right", Sentinel.notAvailable) ]).
Proof.
  split; [apply clockReads_frozen|].
  exact (proj1 (merged_details
                  (frozen 700000
                     {| left := Some false; right := Some true;
                        lastUpdated := {| lu_left := Some 500000; lu_right := Some 1 |} |})
                  700000 (clockReads_frozen _ _))).
Defined.

(** ** Rejected writes *)

(** X6.  A [POST /presence] is answered without any write in three cases:
    500 when there is no parsed body, 400 when the parsed body supplies no
    side, and 400 when its [left] is supplied and not a boolean, whatever
    [right] is: a valid [right] next to an invalid [left] is not stored
    (while a valid [left] next to an invalid [right] is). *)
Theorem post_rejected_on_left_writes_nothing (w : World) (reqBody : option Body) :
  reqBody = None \/
  (exists body,
     reqBody = Some body /\
     ((req_left body = None /\ req_right body = None) \/
      (exists v, req_left body = Some v /\ isBoolean v = false))) ->
  status (fst (runHandler (post reqBody) w)) =
    match reqBody with None => 500 | Some _ => 400 end /\
  presenceData (snd (runHandler (post reqBody) w)) = presenceData w.
Proof.
  destruct w as [clk n d].
  intros [->|[body [-> [[Hl Hr]|[v [Hl Hv]]]]]].
  - split; reflexivity.
  - destruct body as [l r]; cbn [req_left req_right] in *; subst.
    split; reflexivity.
  - destruct body as [l r]; cbn [req_left req_right] in *; subst.
    destruct v; try discriminate Hv; destruct r; split; reflexivity.
Qed.

Lemma post_rejected_on_left_writes_nothing_witness :
  let body := {| req_left := Some (JString "true"); req_right := Some (JBool true) |} in
  let w := frozen 9 initialPresenceData in
  status (fst (runHandler (post (Some body)) w)) = 400 /\
  presenceData (snd (runHandler (post (Some body)) w)) = initialPresenceData.
Proof.
  refine (post_rejected_on_left_writes_nothing (frozen 9 initialPresenceData)
            (Some {| req_left := Some (JString "true"); req_right := Some (JBool true) |}) _).
  right. eexists. split; [reflexivity|].
  right. exists (JString "true"). split; reflexivity.
Defined.

(** ** The formatSideData variant *)

(** X7.  formatSideData variant, clock at [now]: the answer to a
    [GET /presence] without a recognised [side] is the object [{left,
    right}] whose two members are the answers to [?side=left] and
    [?side=right]. *)
Theorem formatted_merged_is_both_sides (fmt : Z -> string) (w : World) (now : Z)
    (side : option QueryValue) :
  clockReads w now ->
  side <> Some (QString "left") ->
  side <> Some (QString "right") ->
  fst (runHandler (Formatted.get fmt side) w) =
    {| status := 200;
       json :=
         JObject
           [ ("left", json (fst (runHandler (Formatted.get fmt (sideOf LeftZone)) w)));
             ("right", json (fst (runHandler (Formatted.get fmt (sideOf RightZone)) w))) ] |}.
Proof.
  intros H Hl Hr. apply strictEq_false in Hl, Hr.
  rewrite (Formatted_get_frozen fmt side w now H), !Formatted_get_side.
  rewrite (clockReads_now _ _ H).
  destruct (presenceData w) as [l r [tl tr]].
  unfold runHandler, Formatted.get, bind, readData, send, frozen. store_simpl.
  rewrite Hl, Hr.
  repeat (rewrite formatSideData_run; store_simpl). reflexivity.
Qed.

Lemma formatted_merged_is_both_sides_witness :
  let w := frozen 5 initialPresenceData in
  clockReads w 5 /\
  json (fst (runHandler (Formatted.get (fun _ => "t") None) w)) =
    JObject [ ("left", Formatted.sidePresent false "never" true);
              ("right", Formatted.sidePresent false "never" true) ].
Proof.
  split; [apply clockReads_frozen|].
  assert (Hl : @None QueryValue <> Some (QString "left")) by discriminate.
  assert (Hr : @None QueryValue <> Some (QString "right")) by discriminate.
  exact (f_equal json
           (formatted_merged_is_both_sides (fun _ => "t") (frozen 5 initialPresenceData)
              5 None (clockReads_frozen _ _) Hl Hr)).
Defined.

(** ** A timestamp of zero *)

(** X8.  A zone whose stored timestamp is [0] is served as if it had never
    been written, at every instant and whatever the clock does: the
    formatSideData variant answers [lastUpdatedAt = 'never'] and
    [isStale = true] next to the stored boolean, the sentinel variant
    answers ['not available']. *)
Theorem zero_timestamp_reads_as_never (fmt : Z -> string) (w : World) (z : Zone) :
  zoneUpdated z (presenceData w) = Some 0 ->
  json (fst (runHandler (Formatted.get fmt (sideOf z)) w)) =
    Formatted.sidePresent
      (match zonePresent z (presenceData w) with Some b => b | None => false end)
      "never" true /\
  json (fst (runHandler (Sentinel.get (sideOf z)) w)) =
    Sentinel.sideUnavailable (zoneName z)
      ("No recent data available for " ++ zoneName z ++ " side").
Proof.
  intros Hz. split.
  - rewrite Formatted_get_side, Hz. reflexivity.
  - destruct w as [clk n [l r [tl tr]]].
    unfold runHandler, Sentinel.get, bind, readData. store_simpl.
    repeat (rewrite isAvailable_run; store_simpl). unfold send.
    destruct z; cbn [zoneUpdated presenceData lastUpdated lu_left lu_right] in Hz;
      subst;
      cbn [sideOf zoneName strictEq String.eqb Ascii.eqb Bool.eqb];
      [destruct l | destruct r]; reflexivity.
Qed.

Lemma zero_timestamp_reads_as_never_witness :
  let d := {| left := Some true; right := None;
              lastUpdated := {| lu_left := Some 0; lu_right := None |} |} in
  json (fst (runHandler (Formatted.get (fun _ => "t") (sideOf LeftZone)) (frozen 1 d))) =
    Formatted.sidePresent true "never" true.
Proof.
  exact (proj1 (zero_timestamp_reads_as_never (fun _ => "t")
                  (frozen 1 {| left := Some true; right := None;
                               lastUpdated := {| lu_left := Some 0; lu_right := None |} |})
                  LeftZone eq_refl)).
Defined.

(** ** Invariants of the store over the life of the process *)

Lemma serve_cons (v : Variant) (req : Request) (rest : list Request) (w : World) :
  snd (serve v (req :: rest) w) = snd (serve v rest (snd (runHandler (route v req) w))).
Proof.
  cbn [serve]. destruct (runHandler (route v req) w) as [r w1]. cbn [snd].
  destruct (serve v rest w1) as [rs w2]. reflexivity.
Qed.

Lemma post_setTogether (reqBody : option Body) (w : World) :
  setTogether (presenceData w) ->
  setTogether (presenceData (snd (runHandler (post reqBody) w))).
Proof.
  destruct w as [clk n [l r [tl tr]]]. unfold setTogether.
  destruct reqBody as [body|]; [|trivial].
  by_body body; cbn; intuition discriminate.
Qed.

Lemma route_setTogether (v : Variant) (req : Request) (w : World) :
  setTogether (presenceData w) ->
  setTogether (presenceData (snd (runHandler (route v req) w))).
Proof.
  destruct req as [body|side]; cbn [route].
  - apply post_setTogether.
  - destruct v as [fmt|]; [rewrite Formatted_get_pure | rewrite Sentinel_get_pure];
      trivial.
Qed.

(** X9.  From the start of the process and through any sequence of
    requests, accepted or rejected, in either variant, every zone has a
    stored boolean exactly when it has a stored timestamp: the two fields
    of a zone are [null] together or set together. *)
Theorem present_and_timestamp_set_together (v : Variant) (clk : nat -> Z)
    (reqs : list Request) (z : Zone) :
  let d := presenceData (snd (serve v reqs (start clk))) in
  zonePresent z d = None <-> zoneUpdated z d = None.
Proof.
  cbv zeta.
  assert (H : forall w, setTogether (presenceData w) ->
                        setTogether (presenceData (snd (serve v reqs w)))).
  { induction reqs as [|req rest IH]; intros w Hw; [exact Hw|].
    rewrite serve_cons. apply IH, route_setTogether, Hw. }
  assert (H0 : setTogether (presenceData (start clk)))
    by (split; split; reflexivity).
  destruct (H _ H0) as [HL HR]. destruct z; assumption.
Qed.

Lemma post_clock (reqBody : option Body) (w : World) :
  clock (snd (runHandler (post reqBody) w)) = clock w /\
  (ticks w <= ticks (snd (runHandler (post reqBody) w)))%nat.
Proof.
  destruct w as [clk n d].
  destruct reqBody as [body|]; [|split; reflexivity].
  by_body body; cbn; split; (reflexivity || lia).
Qed.

Lemma Formatted_get_clock (fmt : Z -> string) (side : option QueryValue) (w : World) :
  clock (snd (runHandler (Formatted.get fmt side) w)) = clock w /\
  (ticks w <= ticks (snd (runHandler (Formatted.get fmt side) w)))%nat.
Proof.
  destruct w as [clk n [l r [tl tr]]].
  unfold runHandler, Formatted.get, bind, readData, send. store_simpl.
  destruct (strictEq side "left"); [|destruct (strictEq side "right")];
    repeat (rewrite formatSideData_run; store_simpl);
    repeat match goal with |- context [if ?c then _ else _] => destruct c end;
    split; (reflexivity || lia).
Qed.

Lemma Sentinel_get_clock (side : option QueryValue) (w : World) :
  clock (snd (runHandler (Sentinel.get side) w)) = clock w /\
  (ticks w <= ticks (snd (runHandler (Sentinel.get side) w)))%nat.
Proof.
  destruct w as [clk n [l r [tl tr]]].
  unfold runHandler, Sentinel.get, bind, readData. store_simpl.
  repeat (rewrite isAvailable_run; store_simpl). unfold send.
  destruct l, r;
    repeat match goal with |- context [if ?c then _ else _] => destruct c end;
    cbn [snd clock ticks]; split; (reflexivity || lia).
Qed.

Lemma timestampsRecorded_later (w w' : World) :
  clock w' = clock w ->
  (ticks w <= ticks w')%nat ->
  presenceData w' = presenceData w ->
  timestampsRecorded w -> timestampsRecorded w'.
Proof.
  intros Hc Ht Hd H z t Hz. rewrite Hd in Hz.
  destruct (H z t Hz) as [k [Hk Hr]]. exists k. rewrite Hc. split; [lia | exact Hr].
Qed.

Lemma post_timestampsRecorded (reqBody : option Body) (w : World) :
  timestampsRecorded w -> timestampsRecorded (snd (runHandler (post reqBody) w)).
Proof.
  destruct reqBody as [body|]; [|trivial].
  destruct w as [clk n [l r [tl tr]]]. unfold timestampsRecorded.
  intros H z t.
  pose proof (H LeftZone) as HL. pose proof (H RightZone) as HR.
  cbn [zoneUpdated presenceData lastUpdated lu_left lu_right clock ticks] in HL, HR.
  by_body body; destruct z; cbn; intros Hz;
    try (injection Hz as <-; exists n; split; [lia | reflexivity]);
    try (destruct (HL t Hz) as [k [Hk Hr]]; exists k; split; [lia | exact Hr]);
    try (destruct (HR t Hz) as [k [Hk Hr]]; exists k; split; [lia | exact Hr]).
Qed.

Lemma route_timestampsRecorded (v : Variant) (req : Request) (w : World) :
  timestampsRecorded w ->
  timestampsRecorded (snd (runHandler (route v req) w)) /\
  clock (snd (runHandler (route v req) w)) = clock w.
Proof.
  intros H. destruct req as [body|side]; cbn [route].
  - split; [apply post_timestampsRecorded, H | apply post_clock].
  - destruct v as [fmt|].
    + destruct (Formatted_get_clock fmt side w) as [Hc Ht].
      split; [|exact Hc].
      apply (timestampsRecorded_later w); auto using Formatted_get_pure.
    + destruct (Sentinel_get_clock side w) as [Hc Ht].
      split; [|exact Hc].
      apply (timestampsRecorded_later w); auto using Sentinel_get_pure.
Qed.

(** X10.  From the start of the process and through any sequence of
    requests, in either variant, a stored timestamp is always a reading
    that [Date.now()] gave earlier in the process.  Hence, with a clock
    that never goes back, a stored timestamp is never later than the next
    reading: no read sees a negative elapsed time. *)
Theorem stored_timestamps_are_clock_readings (v : Variant) (clk : nat -> Z)
    (reqs : list Request) (z : Zone) (t : Z) :
  let w' := snd (serve v reqs (start clk)) in
  zoneUpdated z (presenceData w') = Some t ->
  (exists k, (k < ticks w')%nat /\ t = clk k) /\
  ((forall i j, (i <= j)%nat -> clk i <= clk j) -> 0 <= clk (ticks w') - t).
Proof.
  cbv zeta.
  assert (H : forall w, timestampsRecorded w ->
                        timestampsRecorded (snd (serve v reqs w)) /\
                        clock (snd (serve v reqs w)) = clock w).
  { induction reqs as [|req rest IH]; intros w Hw; [split; [exact Hw | reflexivity]|].
    rewrite serve_cons.
    destruct (route_timestampsRecorded v req w Hw) as [H1 H2].
    destruct (IH _ H1) as [H3 H4]. split; [exact H3 | congruence]. }
  assert (H0 : timestampsRecorded (start clk)) by (intros [|] t0 Ht0; discriminate Ht0).
  destruct (H _ H0) as [Hrec Hclk]. cbn [start clock] in Hclk.
  intros Hz. destruct (Hrec z t Hz) as [k [Hk Hr]]. rewrite Hclk in Hr.
  split; [exists k; split; assumption|].
  intros Hmono. subst t.
  pose proof (Hmono k (ticks (snd (serve v reqs (start clk)))) (Nat.lt_le_incl _ _ Hk)).
  lia.
Qed.

Lemma stored_timestamps_are_clock_readings_witness :
  let clk := fun k : nat => Z.of_nat k + 100 in
  let reqs := [ GetPresence None; PostPresence (Some (bodyFor RightZone true)) ] in
  exists k, (k < ticks (snd (serve UseSentinel reqs (start clk))))%nat /\ 100 = clk k.
Proof.
  exact (proj1 (stored_timestamps_are_clock_readings UseSentinel
                  (fun k : nat => Z.of_nat k + 100)
                  [ GetPresence None; PostPresence (Some (bodyFor RightZone true)) ]
                  RightZone 100 eq_refl)).
Defined.

Lemma post_keeps_written (reqBody : option Body) (w : World) (z : Zone) :
  zonePresent z (presenceData w) <> None ->
  zonePresent z (presenceData (snd (runHandler (post reqBody) w))) <> None.
Proof.
  destruct reqBody as [body|]; [|trivial].
  destruct w as [clk n [l r [tl tr]]].
  by_body body; destruct z; cbn; intros H; (exact H || discriminate).
Qed.

(** X14.  No request clears a zone: once a zone holds a boolean it holds
    one after any further sequence of requests, in either variant.  Only
    staleness, computed at read time, makes a written zone unavailable
    again. *)
Theorem written_zone_is_never_cleared (v : Variant) (reqs : list Request)
    (w : World) (z : Zone) :
  zonePresent z (presenceData w) <> None ->
  zonePresent z (presenceData (snd (serve v reqs w))) <> None.
Proof.
  revert w. induction reqs as [|req rest IH]; intros w Hw; [exact Hw|].
  rewrite serve_cons. apply IH.
  destruct req as [body|side]; cbn [route].
  - apply post_keeps_written, Hw.
  - destruct v as [fmt|]; [rewrite Formatted_get_pure | rewrite Sentinel_get_pure];
      exact Hw.
Qed.

Lemma written_zone_is_never_cleared_witness :
  let d := {| left := Some true; right := None;
              lastUpdated := {| lu_left := Some 3; lu_right := None |} |} in
  let reqs := [ PostPresence (Some {| req_left := Some JNull; req_right := Some (JBool false) |});
                GetPresence (Some (QString "left")) ] in
  zonePresent LeftZone (presenceData (snd (serve UseSentinel reqs (frozen 4 d)))) <> None.
Proof.
  refine (written_zone_is_never_cleared UseSentinel
            [ PostPresence (Some {| req_left := Some JNull; req_right := Some (JBool false) |});
              GetPresence (Some (QString "left")) ]
            (frozen 4 {| left := Some true; right := None;
                         lastUpdated := {| lu_left := Some 3; lu_right := None |} |})
            LeftZone _).
  discriminate.
Defined.

(** * Properties of the error handlers *)

(** X11.  The middleware for body-parser failures answers exactly the
    errors that are objects whose [type] is ['entity.parse.failed'], and
    answers them all alike: 400 with [{error: {message: 'Invalid JSON'}}],
    nothing of the error's own status, message or stack.  Every other
    value, falsy ones included, goes to [next] unchanged. *)
Theorem json_parse_errors_are_normalised (err : option JsonValue) :
  (ErrorHandlers.jsonParseErrorHandler err = ErrorHandlers.Responded ErrorHandlers.invalidJson <->
   exists fields,
     err = Some (JObject fields) /\
     assoc "type" fields = Some (JString "entity.parse.failed")) /\
  (ErrorHandlers.jsonParseErrorHandler err <> ErrorHandlers.Responded ErrorHandlers.invalidJson ->
   ErrorHandlers.jsonParseErrorHandler err = ErrorHandlers.PassedOn err).
Proof.
  unfold ErrorHandlers.jsonParseErrorHandler.
  destruct err as [[ |b|n|s|items|fields]|];
    cbn [ErrorHandlers.truthyValue ErrorHandlers.member prop ErrorHandlers.isString
         negb orb].
  1-5, 7:
    rewrite ?orb_true_r;
    (split; [split; [discriminate | intros [f [Hf _]]; discriminate Hf] | reflexivity]).
  destruct (assoc "type" fields) as [[ | | |t| | ]|] eqn:E;
    cbn [ErrorHandlers.isString negb];
    try (split; [split; [discriminate | intros [f [Hf Ht]]; injection Hf as <-;
                         rewrite E in Ht; discriminate Ht] | reflexivity]).
  destruct (String.eqb_spec t "entity.parse.failed") as [->|Hne]; cbn [negb].
  - split; [split; [intros _; exists fields; split; [reflexivity | exact E] | reflexivity]|].
    intros H. exfalso. apply H. reflexivity.
  - split; [split; [discriminate|] | reflexivity].
    intros [f [Hf Ht]]. injection Hf as <-. rewrite E in Ht.
    injection Ht as ->. exfalso. apply Hne. reflexivity.
Qed.


(** X13.  The body the central error handler hands to [res.json] is
    [{error: {message, ..}}] where [message] is never falsy: it is the
    error's [message] when that is truthy and ['Internal Server Error']
    otherwise (missing, [null], empty string, error [undefined]).  In
    production the [error] object has no other member, so the handler
    gives no stack away; elsewhere it carries the error's [stack] when the
    error has one. *)
Theorem central_body_hides_stack_in_production
    (StringToNumber : string -> option Z) (ObjectToNumber : JsonValue -> option Z)
    (NODE_ENV : option string) (err : option JsonValue) :
  let r := ErrorHandlers.centralErrorHandler StringToNumber ObjectToNumber NODE_ENV err in
  exists message rest,
    ErrorHandlers.jsonArg r = JObject [ ("error", JObject (("message", message) :: rest)) ] /\
    ErrorHandlers.truthyValue (Some message) = true /\
    (ErrorHandlers.truthyValue (ErrorHandlers.member "message" err) = true ->
     ErrorHandlers.member "message" err = Some message) /\
    (ErrorHandlers.truthyValue (ErrorHandlers.member "message" err) = false ->
     message = JString "Internal Server Error") /\
    (NODE_ENV = Some "production" -> rest = []) /\
    (NODE_ENV <> Some "production" ->
     assoc "stack" (("message", message) :: rest) = ErrorHandlers.member "stack" err).
Proof.
  cbv zeta. unfold ErrorHandlers.centralErrorHandler. cbn [ErrorHandlers.jsonArg].
  do 2 eexists. split; [reflexivity|].
  split; [|split; [|split; [|split]]].
  - destruct (ErrorHandlers.member "message" err) as [m|]; [|reflexivity].
    destruct (ErrorHandlers.truthyValue (Some m)) eqn:E; [exact E | reflexivity].
  - destruct (ErrorHandlers.member "message" err) as [m|]; [|discriminate].
    intros H. rewrite H. reflexivity.
  - destruct (ErrorHandlers.member "message" err) as [m|]; [|reflexivity].
    intros H. rewrite H. reflexivity.
  - intros ->. reflexivity.
  - intros Henv.
    assert (Hprod : match NODE_ENV with
                    | Some s => String.eqb s "production"
                    | None => false
                    end = false).
    { destruct NODE_ENV as [s|]; [|reflexivity].
      apply String.eqb_neq. intros ->. apply Henv. reflexivity. }
    rewrite Hprod. cbn [negb].
    destruct (ErrorHandlers.member "stack" err) as [s|]; reflexivity.
Qed.
